(** * yaya_webhook: webhook authentication and idempotent ingestion

    A shallow embedding of [handler.go] and [model.go]: the signature
    reconstruction ([generateSignature]), the comparison ([verifySignature]),
    the freshness check ([validateTimestamp]), the upsert
    ([saveWebhookToDatabase]) and the request handler
    ([YayayWebhookHandler]), together with the parts of the Go runtime and
    of the libraries the handler calls that its behaviour depends on. *)

From Stdlib Require Import ZArith List String Ascii Bool Lia.
From Stdlib Require Import DecimalString DecimalZ Permutation.
Import ListNotations.

Local Open Scope string_scope.
Local Open Scope Z_scope.

(* ================================================================== *)
(** ** Go strings as byte sequences *)

(** A Go [string] is an immutable sequence of bytes; [String.string] is a
    list of 8-bit characters, so the two coincide. *)
Module GoString.

Definition byte_of (c : ascii) : Z := Z.of_N (N_of_ascii c).

Fixpoint bytes (s : string) : list Z :=
  match s with
  | EmptyString => []
  | String c r => byte_of c :: bytes r
  end.

Definition len (s : string) : Z := Z.of_nat (String.length s).

(** [strings.Repeat]. *)
Fixpoint Repeat (s : string) (n : nat) : string :=
  match n with
  | O => EmptyString
  | S k => (s ++ Repeat s k)%string
  end.

(** [s[:n]] and [s[n:]] for [0 <= n <= len(s)]. *)
Fixpoint take (n : nat) (s : string) : string :=
  match n, s with
  | S k, String c r => String c (take k r)
  | _, _ => EmptyString
  end.

Fixpoint drop (n : nat) (s : string) : string :=
  match n, s with
  | S k, String _ r => drop k r
  | _, _ => s
  end.

(** The built-in [==] on strings: the two strings hold the same bytes. *)
Definition eq (a b : string) : bool := String.eqb a b.

End GoString.

(* ================================================================== *)
(** ** [encoding/hex], [crypto/sha256], [crypto/hmac] *)

Module Hex.

Definition hextable : string := "0123456789abcdef".

Definition digit (n : Z) : ascii :=
  match String.get (Z.to_nat n) hextable with
  | Some c => c
  | None => "0"%char
  end.

(** [hex.EncodeToString]: two lowercase digits per byte, high nibble
    first. *)
Fixpoint EncodeToString (src : list Z) : string :=
  match src with
  | [] => EmptyString
  | v :: r =>
      String (digit (Z.shiftr v 4)) (String (digit (Z.land v 15)) (EncodeToString r))
  end.

End Hex.

Module SHA256.

Definition mask32 : Z := 4294967295.
Definition add32 (x y : Z) : Z := Z.land (x + y) mask32.
Definition rotr (x n : Z) : Z :=
  Z.lor (Z.shiftr x n) (Z.land (Z.shiftl x (32 - n)) mask32).
Definition not32 (x : Z) : Z := Z.lxor x mask32.

(** The value of a lowercase hexadecimal digit. *)
Definition hex_val (c : ascii) : Z :=
  let b := GoString.byte_of c in
  if b <=? 57 then b - 48 else b - 87.

(** The 32-bit words written as eight hexadecimal digits each. *)
Fixpoint table (n : nat) (acc : Z) (s : string) : list Z :=
  match s with
  | EmptyString => []
  | String c r =>
      let v := acc * 16 + hex_val c in
      match n with
      | O => v :: table 7 0 r
      | S k => table k v r
      end
  end.

(** The initial hash value. *)
Definition init : list Z :=
  Eval vm_compute in
    table 7 0 "6a09e667bb67ae853c6ef372a54ff53a510e527f9b05688c1f83d9ab5be0cd19".

(** The round constants [_K], eight to a line. *)
Definition K : list Z :=
  Eval vm_compute in
    table 7 0
    ("428a2f9871374491b5c0fbcfe9b5dba53956c25b59f111f1923f82a4ab1c5ed5"
     ++ "d807aa9812835b01243185be550c7dc372be5d7480deb1fe9bdc06a7c19bf174"
     ++ "e49b69c1efbe47860fc19dc6240ca1cc2de92c6f4a7484aa5cb0a9dc76f988da"
     ++ "983e5152a831c66db00327c8bf597fc7c6e00bf3d5a7914706ca635114292967"
     ++ "27b70a852e1b21384d2c6dfc53380d13650a7354766a0abb81c2c92e92722c85"
     ++ "a2bfe8a1a81a664bc24b8b70c76c51a3d192e819d6990624f40e3585106aa070"
     ++ "19a4c1161e376c082748774c34b0bcb5391c0cb34ed8aa4a5b9cca4f682e6ff3"
     ++ "748f82ee78a5636f84c878148cc7020890befffaa4506cebbef9a3f7c67178f2")%string.

(** Big-endian 32-bit words of a block of bytes. *)
Fixpoint words (bs : list Z) : list Z :=
  match bs with
  | a :: b :: c :: d :: r =>
      Z.lor (Z.shiftl a 24) (Z.lor (Z.shiftl b 16) (Z.lor (Z.shiftl c 8) d))
      :: words r
  | _ => []
  end.

Definition word_bytes (w : Z) : list Z :=
  [Z.land (Z.shiftr w 24) 255; Z.land (Z.shiftr w 16) 255;
   Z.land (Z.shiftr w 8) 255; Z.land w 255].

(** The message schedule, kept newest first: [rev_w] holds
    [w[i-1]; w[i-2]; ...]. *)
Fixpoint schedule (n : nat) (rev_w : list Z) : list Z :=
  match n with
  | O => rev_w
  | S k =>
      let v1 := nth 1 rev_w 0 in
      let v2 := nth 14 rev_w 0 in
      let t1 := Z.lxor (rotr v1 17) (Z.lxor (rotr v1 19) (Z.shiftr v1 10)) in
      let t2 := Z.lxor (rotr v2 7) (Z.lxor (rotr v2 18) (Z.shiftr v2 3)) in
      let w := add32 (add32 (add32 t1 (nth 6 rev_w 0)) t2) (nth 15 rev_w 0) in
      schedule k (w :: rev_w)
  end.

Record regs := Regs { ra : Z; rb : Z; rc : Z; rd : Z; re : Z; rf : Z; rg : Z; rh : Z }.

Definition round (s : regs) (kw : Z * Z) : regs :=
  let '(k, w) := kw in
  let '(Regs a b c d e f g h) := s in
  let t1 :=
    add32 (add32 (add32 (add32 h
      (Z.lxor (rotr e 6) (Z.lxor (rotr e 11) (rotr e 25))))
      (Z.lxor (Z.land e f) (Z.land (not32 e) g))) k) w in
  let t2 :=
    add32 (Z.lxor (rotr a 2) (Z.lxor (rotr a 13) (rotr a 22)))
          (Z.lxor (Z.land a b) (Z.lxor (Z.land a c) (Z.land b c))) in
  Regs (add32 t1 t2) a b c (add32 d t1) e f g.

Definition of_list (h : list Z) : regs :=
  Regs (nth 0 h 0) (nth 1 h 0) (nth 2 h 0) (nth 3 h 0)
       (nth 4 h 0) (nth 5 h 0) (nth 6 h 0) (nth 7 h 0).

Definition to_list (s : regs) : list Z :=
  [ra s; rb s; rc s; rd s; re s; rf s; rg s; rh s].

(** One 64-byte block. *)
Definition block (h : list Z) (blk : list Z) : list Z :=
  let w := rev (schedule 48 (rev (words blk))) in
  let s := fold_left round (combine K w) (of_list h) in
  map (fun p => add32 (fst p) (snd p)) (combine h (to_list s)).

Fixpoint blocks (n : nat) (h : list Z) (bs : list Z) : list Z :=
  match n with
  | O => h
  | S k => blocks k (block h (firstn 64 bs)) (skipn 64 bs)
  end.

(** Padding: 0x80, zeros up to 56 mod 64, then the bit length as a
    big-endian 64-bit integer. *)
Definition pad (msg : list Z) : list Z :=
  let l := Z.of_nat (List.length msg) in
  let z := (55 - l) mod 64 in
  let bits := l * 8 in
  (msg ++ [128] ++ repeat 0 (Z.to_nat z)
       ++ word_bytes (Z.land (Z.shiftr bits 32) mask32)
       ++ word_bytes (Z.land bits mask32))%list.

Definition Sum256 (msg : list Z) : list Z :=
  let p := pad msg in
  flat_map word_bytes (blocks (Nat.div (List.length p) 64) init p).

End SHA256.

Module HMAC.

Definition BlockSize : nat := 64.

(** [hmac.New(sha256.New, key)] followed by [Write(msg)] and [Sum(nil)]:
    a key longer than the block size is hashed first, then it is padded
    with zeros to the block size. *)
Definition Sum (key msg : list Z) : list Z :=
  let k0 := if Nat.ltb BlockSize (List.length key) then SHA256.Sum256 key else key in
  let k := (k0 ++ repeat 0 (BlockSize - List.length k0))%list in
  let ipad := map (fun b => Z.lxor b 0x36) k in
  let opad := map (fun b => Z.lxor b 0x5c) k in
  SHA256.Sum256 (opad ++ SHA256.Sum256 (ipad ++ msg))%list.

End HMAC.

(* ================================================================== *)
(** ** [strconv]: decimal text of integers *)

Module strconv.

Definition is_digit (c : ascii) : bool :=
  (48 <=? GoString.byte_of c) && (GoString.byte_of c <=? 57).

Definition digit_val (c : ascii) : Z := GoString.byte_of c - 48.

Definition digit_char (d : Z) : ascii := ascii_of_N (Z.to_N (48 + d)).

(** The digit loop of [ParseUint] / [big.Int.SetString] in base 10:
    [n = n*10 + digit], failing on any other byte. *)
Fixpoint parse_digits (s : string) (acc : Z) : option Z :=
  match s with
  | EmptyString => Some acc
  | String c r =>
      if is_digit c then parse_digits r (acc * 10 + digit_val c) else None
  end.

(** A signed decimal integer of any size: an optional [+] or [-], then at
    least one digit, and nothing else ([big.Int.SetString(s, 10)], and
    [ParseInt(s, 10, 64)] where the value fits). *)
Definition parse_signed (s : string) : option Z :=
  match s with
  | EmptyString => None
  | String c r =>
      let neg := Ascii.eqb c "-" in
      let body := if Ascii.eqb c "+" || neg then r else s in
      match body with
      | EmptyString => None
      | _ =>
          match parse_digits body 0 with
          | Some n => Some (if neg then - n else n)
          | None => None
          end
      end
  end.

(** [ParseInt(s, 10, bitSize)]: a value outside the signed [bitSize]-bit
    range is an error. *)
Definition ParseInt (s : string) (bitSize : Z) : option Z :=
  match parse_signed s with
  | Some n =>
      if (- 2 ^ (bitSize - 1) <=? n) && (n <? 2 ^ (bitSize - 1))
      then Some n else None
  | None => None
  end.

(** The digit loop of [formatBits]: digits are produced least significant
    first and written backwards in front of [acc]. *)
Fixpoint format_loop (fuel : nat) (n : Z) (acc : string) : string :=
  match fuel with
  | O => acc
  | S f =>
      let acc' := String (digit_char (n mod 10)) acc in
      if n <? 10 then acc' else format_loop f (n / 10) acc'
  end.

(** Decimal text of a non-negative integer ([FormatUint], and
    [big.Int.String] of a non-negative value).  The loop runs once per
    digit; one more than the binary length bounds that. *)
Definition FormatUint (n : Z) : string :=
  format_loop (S (Z.to_nat (Z.log2 n))) n EmptyString.

(** [FormatInt(i, 10)], [big.Int.String]. *)
Definition FormatInt (i : Z) : string :=
  if i <? 0 then String "-" (FormatUint (- i)) else FormatUint i.

End strconv.

(* ================================================================== *)
(** ** [fmt.Sprintf], the fragment the handler uses *)

Module fmt.

(** Operands as [Sprintf] sees them: a value of string kind (a [string]
    or a named string type such as [Currency]), an [int64], or a value
    with a [String() string] method, carried with the text that method
    returns. *)
Inductive arg : Type :=
| AString (s : string)
| AInt64 (n : Z)
| AStringer (s : string).

(** [%s] prints a string operand as it is and a [Stringer] through its
    method; [%d] prints an integer in decimal.  Other verb and operand
    pairs are outside the fragment. *)
Definition verb (v : ascii) (a : arg) : option string :=
  if Ascii.eqb v "s" then
    match a with
    | AString s => Some s
    | AStringer s => Some s
    | AInt64 _ => None
    end
  else if Ascii.eqb v "d" then
    match a with
    | AInt64 n => Some (strconv.FormatInt n)
    | _ => None
    end
  else None.

(** [None] when the format leaves the fragment: an unknown verb, a verb
    that does not fit its operand, a missing or an extra operand. *)
Fixpoint Sprintf (format : string) (args : list arg) : option string :=
  match format with
  | EmptyString => match args with [] => Some EmptyString | _ => None end
  | String c rest =>
      if Ascii.eqb c "%" then
        match rest with
        | String v rest' =>
            if Ascii.eqb v "%" then
              option_map (String "%") (Sprintf rest' args)
            else
              match args with
              | a :: args' =>
                  match verb v a, Sprintf rest' args' with
                  | Some s, Some r => Some (s ++ r)
                  | _, _ => None
                  end
              | [] => None
              end
        | EmptyString => None
        end
      else option_map (String c) (Sprintf rest args)
  end.

End fmt.

(* ================================================================== *)
(** ** [github.com/shopspring/decimal]: the type of [YayaWebhook.Amount] *)

Module decimal.

(** [Decimal] is an arbitrary-precision coefficient ([*big.Int]) and a
    base-10 exponent ([int32]); it denotes [value * 10 ^ exp].  The text
    it was decoded from is not kept.  The zero value (nil coefficient)
    behaves as [0]. *)
Record Decimal : Type := mkDecimal { value : Z; exp : Z }.

Definition MinInt32 : Z := - 2 ^ 31.
Definition MaxInt32 : Z := 2 ^ 31 - 1.

(** [strings.IndexAny(s, chars)] for a set of bytes given as a test. *)
Fixpoint index_any (p : ascii -> bool) (s : string) : option nat :=
  match s with
  | EmptyString => None
  | String c r => if p c then Some O else option_map S (index_any p r)
  end.

Definition is_E (c : ascii) : bool := Ascii.eqb c "E" || Ascii.eqb c "e".
Definition is_dot (c : ascii) : bool := Ascii.eqb c ".".

(** The scan for the decimal point: [inl tt] when there is more than one,
    [inr pIndex] otherwise. *)
Definition find_point (s : string) : unit + option nat :=
  match index_any is_dot s with
  | None => inr None
  | Some i =>
      match index_any is_dot (GoString.drop (S i) s) with
      | Some _ => inl tt
      | None => inr (Some i)
      end
  end.

(** [NewFromString]; [None] stands for every error return. *)
Definition NewFromString (input : string) : option Decimal :=
  let scientific :=
    match index_any is_E input with
    | Some eIndex =>
        match strconv.ParseInt (GoString.drop (S eIndex) input) 32 with
        | Some expInt => Some (GoString.take eIndex input, expInt)
        | None => None
        end
    | None => Some (input, 0)
    end in
  match scientific with
  | None => None
  | Some (v, exp0) =>
      match find_point v with
      | inl _ => None
      | inr pIndex =>
          let '(intString, exp1) :=
            match pIndex with
            | None => (v, exp0)
            | Some p =>
                let frac := GoString.drop (S p) v in
                ((if Nat.ltb (S p) (String.length v)
                  then GoString.take p v ++ frac
                  else GoString.take p v)%string,
                 exp0 + - GoString.len frac)
            end in
          let dValue :=
            if Nat.leb (String.length intString) 18
            then strconv.ParseInt intString 64
            else strconv.parse_signed intString in
          match dValue with
          | None => None
          | Some n =>
              if (exp1 <? MinInt32) || (MaxInt32 <? exp1) then None
              else Some (mkDecimal n exp1)
          end
      end
  end.

(** [rescale]: the same number at another exponent, truncating toward
    zero when digits are dropped. *)
Definition rescale (d : Decimal) (e : Z) : Decimal :=
  if exp d =? e then d
  else
    let expScale := 10 ^ Z.abs (e - exp d) in
    if exp d <? e then mkDecimal (Z.quot (value d) expScale) e
    else mkDecimal (value d * expScale) e.

(** The loop that drops the zeros at the end of the fractional part. *)
Fixpoint trim_zeros (s : string) : string :=
  match s with
  | EmptyString => EmptyString
  | String c r =>
      match trim_zeros r with
      | EmptyString => if Ascii.eqb c "0" then EmptyString else String c EmptyString
      | r' => String c r'
      end
  end.

(** [d.string(trimTrailingZeros)]: fixed-point text, never an exponent. *)
Definition string_ (d : Decimal) (trimTrailingZeros : bool) : string :=
  if 0 <=? exp d then strconv.FormatInt (value (rescale d 0))
  else
    let str := strconv.FormatUint (Z.abs (value d)) in
    let k := Z.to_nat (- exp d) in
    let n := String.length str in
    let '(intPart, fractionalPart) :=
      if Nat.ltb k n
      then (GoString.take (n - k) str, GoString.drop (n - k) str)
      else ("0"%string, (GoString.Repeat "0" (k - n) ++ str)%string) in
    let fractionalPart :=
      if trimTrailingZeros then trim_zeros fractionalPart else fractionalPart in
    let number :=
      match fractionalPart with
      | EmptyString => intPart
      | _ => (intPart ++ "." ++ fractionalPart)%string
      end in
    if value d <? 0 then String "-" number else number.

(** [Decimal.String]. *)
Definition String_ (d : Decimal) : string := string_ d true.

Definition dquote : ascii := ascii_of_nat 34.

(** [unquoteIfQuoted]. *)
Definition unquoteIfQuoted (b : string) : string :=
  let n := String.length b in
  if Nat.ltb 2 n
     && match String.get 0 b, String.get (n - 1) b with
        | Some x, Some y => Ascii.eqb x dquote && Ascii.eqb y dquote
        | _, _ => false
        end
  then GoString.take (n - 2) (GoString.drop 1 b)
  else b.

(** [UnmarshalJSON] on the raw text of a JSON value: [null] leaves the
    zero value, anything else goes through [NewFromString] after the
    quotes of a JSON string are removed. *)
Definition UnmarshalJSON (decimalBytes : string) : option Decimal :=
  if String.eqb decimalBytes "null" then Some (mkDecimal 0 0)
  else NewFromString (unquoteIfQuoted decimalBytes).

End decimal.

(* ================================================================== *)
(** ** [model.go] *)

Definition Currency : Type := string.
Definition ETB : Currency := "ETB".

Record YayaWebhook : Type := mkYayaWebhook {
  ID : string;
  Amount : decimal.Decimal;
  Currency_ : Currency;
  CreatedAtTime : Z;
  TimeStamp : Z;
  Cause : string;
  FullName : string;
  AccountName : string;
  InvoiceURL : string
}.

Record Response : Type := mkResponse {
  StatusCode : Z;
  Message : string;
  Error : string
}.

Definition StatusOK : Z := 200.
Definition StatusBadRequest : Z := 400.

(* ================================================================== *)
(** ** [int64] and [time] *)

Definition MinInt64 : Z := - 2 ^ 63.
Definition MaxInt64 : Z := 2 ^ 63 - 1.

Definition in_int64 (z : Z) : bool := (MinInt64 <=? z) && (z <=? MaxInt64).

(** Two's-complement wrap-around of [int64] arithmetic. *)
Definition wrap64 (z : Z) : Z := (z + 2 ^ 63) mod 2 ^ 64 - 2 ^ 63.

Definition sub64 (a b : Z) : Z := wrap64 (a - b).

Module time.

(** A [Duration] counts nanoseconds; an instant is kept as nanoseconds
    since the epoch. *)
Definition Duration : Type := Z.
Definition Second : Duration := 1000000000.
Definition Minute : Duration := 60 * Second.

(** [Time.Unix]: whole seconds since the epoch, rounded down. *)
Definition Unix (t : Z) : Z := t / Second.

(** [int64(d.Seconds())].  [Seconds] returns the [float64]
    [sec + nsec/1e9]; for the whole-second durations the handler passes
    the float is exact and the conversion gives the quotient. *)
Definition Seconds_int64 (d : Duration) : Z := Z.quot d Second.

End time.

(* ================================================================== *)
(** ** The world a request runs in *)

Inductive Level : Type := LevelInfo | LevelError.

(** A [slog] record, by level and message; the attributes are left out. *)
Record LogRecord : Type := mkLog { level : Level; msg : string }.

(** One row of table [webhooks]; [created_at] and [updated_at] hold the
    instants bound to the last two parameters of the insert. *)
Record Row : Type := mkRow {
  id : string;
  amount : string;
  currency : string;
  created_at_time : Z;
  timestamp : Z;
  cause : string;
  full_name : string;
  account_name : string;
  invoice_url : string;
  created_at : Z;
  updated_at : Z
}.

Definition Table : Type := list Row.

(** What the store does when it is asked, chosen by the environment. *)
Inductive Fault : Type :=
| NoFault
| OpenFails            (* the database file cannot be opened *)
| CreateTableFails     (* the CREATE TABLE statement is refused *)
| InsertFails.         (* the INSERT statement is refused *)

Record World : Type := mkWorld {
  clock : Z;                 (* time.Now(), nanoseconds since the epoch *)
  fault : Fault;
  db : option Table;         (* None: table webhooks does not exist yet *)
  logs : list LogRecord;     (* oldest first *)
  wire : list Response       (* what was encoded to the ResponseWriter *)
}.

Definition M (A : Type) : Type := World -> A * World.

Definition ret {A} (a : A) : M A := fun w => (a, w).

Definition bind {A B} (m : M A) (k : A -> M B) : M B :=
  fun w => let '(a, w') := m w in k a w'.

Notation "x <- m ;; k" := (bind m (fun x => k))
  (at level 61, m at next level, right associativity).
Notation "m ;;; k" := (bind m (fun _ => k))
  (at level 61, right associativity).

Definition log_ (l : Level) (m : string) : M unit :=
  fun w => (tt, mkWorld (clock w) (fault w) (db w) (logs w ++ [mkLog l m])%list (wire w)).

Definition time_Now : M Z := fun w => (clock w, w).

(** [json.NewEncoder(w).Encode(resp)]. *)
Definition Encode (r : Response) : M unit :=
  fun w => (tt, mkWorld (clock w) (fault w) (db w) (logs w) (wire w ++ [r])%list).

Definition set_db (t : option Table) : M unit :=
  fun w => (tt, mkWorld (clock w) (fault w) t (logs w) (wire w)).

(** When a goroutine started by [go] runs relative to the statements that
    follow the [go] statement. *)
Inductive Sched : Type := TaskFirst | TaskLast.

Definition go_ (s : Sched) (task : M unit) (rest : M unit) : M unit :=
  match s with
  | TaskFirst => task ;;; rest
  | TaskLast => rest ;;; task
  end.

(* ================================================================== *)
(** ** [database/sql] over SQLite, as far as the two statements go *)

Module sql.

(** [sql.Open("sqlite3", path)]: the driver is registered, and [Open]
    only records the data source; the file is opened by the first
    statement.  It returns [nil]. *)
Definition Open : M (option string) := ret None.

(** [CREATE TABLE IF NOT EXISTS webhooks (id TEXT PRIMARY KEY, ...)], the
    first statement on the handle: a database that cannot be opened
    fails here. *)
Definition Exec_create_table : M (option string) :=
  fun w =>
    match fault w with
    | OpenFails => (Some "unable to open database file", w)
    | CreateTableFails => (Some "database is locked", w)
    | _ =>
        match db w with
        | Some _ => (None, w)
        | None => (set_db (Some []) ;;; ret None) w
        end
    end.

(** [ON CONFLICT(id) DO UPDATE SET ...]: every column of the stored row
    is taken from the proposed row ([excluded]) except [id] and
    [created_at], which the SET list does not name. *)
Definition do_update (old excluded : Row) : Row :=
  mkRow (id old) (amount excluded) (currency excluded)
        (created_at_time excluded) (timestamp excluded) (cause excluded)
        (full_name excluded) (account_name excluded) (invoice_url excluded)
        (created_at old) (updated_at excluded).

(** [INSERT INTO webhooks ... ON CONFLICT(id) DO UPDATE ...]: the row whose
    primary key equals the new one is updated in place; without such a
    row the new one is added. *)
Fixpoint upsert (new : Row) (t : Table) : Table :=
  match t with
  | [] => [new]
  | r :: t' =>
      if String.eqb (id r) (id new) then do_update r new :: t'
      else r :: upsert new t'
  end.

Definition Exec_upsert (new : Row) : M (option string) :=
  fun w =>
    match fault w with
    | InsertFails => (Some "constraint failed", w)
    | _ =>
        match db w with
        | None => (Some "no such table: webhooks", w)
        | Some t => (set_db (Some (upsert new t)) ;;; ret None) w
        end
    end.

(** [SELECT ... FROM webhooks WHERE id = ?]. *)
Definition select_by_id (k : string) (t : Table) : list Row :=
  filter (fun r => String.eqb (id r) k) t.

End sql.

(* ================================================================== *)
(** ** The inbound request *)

(** The members of the JSON object in the body.  [j_amount] is the raw
    text of the [amount] value as it stands in the body (a number such as
    [100.50], or a JSON string with its quotes): [Decimal] decodes itself
    from that text.  The two integer members are the integers written in
    the body.  A member the body leaves out is given by the zero value of
    its field ([null] for the amount). *)
Record JSONObject : Type := mkJSONObject {
  j_id : string;
  j_amount : string;
  j_currency : string;
  j_created_at_time : Z;
  j_timestamp : Z;
  j_cause : string;
  j_full_name : string;
  j_account_name : string;
  j_invoice_url : string
}.

Inductive Body : Type :=
| Malformed                     (* not JSON, or a member of the wrong JSON type *)
| Object (o : JSONObject).

Record Request : Type := mkRequest {
  YAYA_SIGNATURE : option string;   (* the header, when the request has it *)
  body : Body
}.

(** [r.Header.Get("YAYA-SIGNATURE")]: the empty string without the
    header. *)
Definition Header_Get (r : Request) : string :=
  match YAYA_SIGNATURE r with
  | Some v => v
  | None => EmptyString
  end.

(** [json.NewDecoder(r.Body).Decode(&req)]; [None] is a decoding error. *)
Definition Decode (b : Body) : option YayaWebhook :=
  match b with
  | Malformed => None
  | Object o =>
      if in_int64 (j_created_at_time o) && in_int64 (j_timestamp o) then
        match decimal.UnmarshalJSON (j_amount o) with
        | Some d =>
            Some (mkYayaWebhook (j_id o) d (j_currency o) (j_created_at_time o)
                    (j_timestamp o) (j_cause o) (j_full_name o)
                    (j_account_name o) (j_invoice_url o))
        | None => None
        end
      else None
  end.

(* ================================================================== *)
(** ** [handler.go] *)

Record yaya : Type := mkYaya { SecretKey : string }.

(** The operands of the [Sprintf] call, in the order they are passed. *)
Definition signature_args (payload : YayaWebhook) : list fmt.arg :=
  [fmt.AString (ID payload);
   fmt.AStringer (decimal.String_ (Amount payload));
   fmt.AString (Currency_ payload);
   fmt.AInt64 (CreatedAtTime payload);
   fmt.AInt64 (TimeStamp payload);
   fmt.AString (Cause payload);
   fmt.AString (FullName payload);
   fmt.AString (AccountName payload);
   fmt.AString (InvoiceURL payload)].

(** The string that is signed. *)
Definition signedPayload (payload : YayaWebhook) : string :=
  match fmt.Sprintf "%s%s%s%d%d%s%s%s%s" (signature_args payload) with
  | Some s => s
  | None => EmptyString
  end.

Definition generateSignature (y : yaya) (secretKey : string) (payload : YayaWebhook)
  : M string :=
  let signedPayload := signedPayload payload in
  log_ LevelInfo "Generating signature" ;;;
  let result :=
    Hex.EncodeToString
      (HMAC.Sum (GoString.bytes secretKey) (GoString.bytes signedPayload)) in
  log_ LevelInfo "Signature generated" ;;;
  ret result.

Definition verifySignature (y : yaya) (signature : string) (payload : YayaWebhook)
  : M bool :=
  log_ LevelInfo "Verifying signature" ;;;
  signedPayload <- generateSignature y (SecretKey y) payload ;;
  log_ LevelInfo "Signature comparison" ;;;
  ret (GoString.eq signature signedPayload).

Definition validateTimestamp (y : yaya) (timestamp : Z) (tolerance : time.Duration)
  : M bool :=
  t <- time_Now ;;
  let now := time.Unix t in
  let diff := sub64 now timestamp in
  log_ LevelInfo "Validating timestamp" ;;;
  ret ((0 <=? diff) && (diff <=? time.Seconds_int64 tolerance)).

(** The parameters bound to the insert: [created_at] and [updated_at] are
    both the instant read just before it. *)
Definition row_of (webhook : YayaWebhook) (now : Z) : Row :=
  mkRow (ID webhook) (decimal.String_ (Amount webhook)) (Currency_ webhook)
        (CreatedAtTime webhook) (TimeStamp webhook) (Cause webhook)
        (FullName webhook) (AccountName webhook) (InvoiceURL webhook) now now.

(** [None] is the [nil] error. *)
Definition saveWebhookToDatabase (y : yaya) (webhook : YayaWebhook)
  : M (option string) :=
  err <- sql.Open ;;
  match err with
  | Some e => ret (Some ("failed to connect to database: " ++ e)%string)
  | None =>
      err <- sql.Exec_create_table ;;
      match err with
      | Some e => ret (Some ("failed to create table: " ++ e)%string)
      | None =>
          now <- time_Now ;;
          err <- sql.Exec_upsert (row_of webhook now) ;;
          match err with
          | Some e => ret (Some ("failed to insert webhook: " ++ e)%string)
          | None => ret None
          end
      end
  end.

Definition YayayWebhookHandler (y : yaya) (s : Sched) (r : Request) : M unit :=
  let signature := Header_Get r in
  if String.eqb signature EmptyString then
    log_ LevelError "Signature is missing" ;;;
    Encode (mkResponse StatusBadRequest EmptyString "signature is missing")
  else
    match Decode (body r) with
    | None =>
        log_ LevelError "Error decoding request" ;;;
        Encode (mkResponse StatusBadRequest EmptyString "invalid data")
    | Some req =>
        isValid <- validateTimestamp y (TimeStamp req) (5 * time.Minute) ;;
        if negb isValid then
          log_ LevelError "Invalid timestamp" ;;;
          Encode (mkResponse StatusBadRequest EmptyString "invalid timestamp")
        else
          isValid <- verifySignature y signature req ;;
          if negb isValid then
            log_ LevelError "Invalid signature" ;;;
            Encode (mkResponse StatusBadRequest EmptyString "invalid signature")
          else
            go_ s
              (err <- saveWebhookToDatabase y req ;;
               match err with
               | Some _ => log_ LevelError "Failed to save webhook to database"
               | None => log_ LevelInfo "Webhook saved to database successfully"
               end)
              (Encode (mkResponse StatusOK "Webhook received successfully" EmptyString))
    end.

(* ================================================================== *)
(** ** Scenarios and notions the statements use *)

(** The world after more log records, and after one more response. *)
Definition add_logs (l : list LogRecord) (w : World) : World :=
  mkWorld (clock w) (fault w) (db w) (logs w ++ l)%list (wire w).

Definition add_wire (r : Response) (w : World) : World :=
  mkWorld (clock w) (fault w) (db w) (logs w) (wire w ++ [r])%list.

(** The signature [generateSignature] returns, without its log records. *)
Definition signature_of (secretKey : string) (payload : YayaWebhook) : string :=
  Hex.EncodeToString
    (HMAC.Sum (GoString.bytes secretKey) (GoString.bytes (signedPayload payload))).

(** The bytes [0]-[9] and [a]-[f]. *)
Definition lower_hex (c : ascii) : bool :=
  let b := GoString.byte_of c in
  ((48 <=? b) && (b <=? 57)) || ((97 <=? b) && (b <=? 102)).

Fixpoint all_chars (p : ascii -> bool) (s : string) : bool :=
  match s with
  | EmptyString => true
  | String c r => p c && all_chars p r
  end.

(** The body of the end-to-end scenario and the event it decodes to. *)
Definition scenario_object : JSONObject :=
  mkJSONObject "abc123" "100" "ETB" 1700000000 1700000000 "Testing"
    "Abebe Kebede" "abebekebede1" "https://yayawallet.com/en/invoice/xxxx".

Definition scenario_event : YayaWebhook :=
  mkYayaWebhook "abc123" (decimal.mkDecimal 100 0) "ETB" 1700000000 1700000000
    "Testing" "Abebe Kebede" "abebekebede1" "https://yayawallet.com/en/invoice/xxxx".

(** Two events that differ only in where [cause] ends and [full_name]
    begins. *)
Definition split_early : YayaWebhook :=
  mkYayaWebhook "abc123" (decimal.mkDecimal 100 0) "ETB" 1700000000 1700000000
    "Testing" "Abebe Kebede" "abebekebede1" "https://yayawallet.com/en/invoice/xxxx".

Definition split_late : YayaWebhook :=
  mkYayaWebhook "abc123" (decimal.mkDecimal 100 0) "ETB" 1700000000 1700000000
    "TestingAbebe" " Kebede" "abebekebede1" "https://yayawallet.com/en/invoice/xxxx".

Definition idle_world : World := mkWorld 0 NoFault None [] [].

(** The responses the handler writes. *)
Definition rejection (e : string) : Response :=
  mkResponse StatusBadRequest EmptyString e.

Definition success : Response :=
  mkResponse StatusOK "Webhook received successfully" EmptyString.

Definition with_fault (f : Fault) (w : World) : World :=
  mkWorld (clock w) f (db w) (logs w) (wire w).

Definition table_of (d : option Table) : Table :=
  match d with
  | Some t => t
  | None => []
  end.

(** The goroutine the handler starts. *)
Definition ingestion_task (y : yaya) (req : YayaWebhook) : M unit :=
  err <- saveWebhookToDatabase y req ;;
  match err with
  | Some _ => log_ LevelError "Failed to save webhook to database"
  | None => log_ LevelInfo "Webhook saved to database successfully"
  end.

(** The record the goroutine logs, by what the store did. *)
Definition outcome_record (f : Fault) : LogRecord :=
  match f with
  | NoFault => mkLog LevelInfo "Webhook saved to database successfully"
  | _ => mkLog LevelError "Failed to save webhook to database"
  end.

(** The records of a request that passes both checks. *)
Definition auth_logs : list LogRecord :=
  [mkLog LevelInfo "Validating timestamp";
   mkLog LevelInfo "Verifying signature";
   mkLog LevelInfo "Generating signature";
   mkLog LevelInfo "Signature generated";
   mkLog LevelInfo "Signature comparison"].

(** The request of the end-to-end scenario, with its correct token. *)
Definition scenario_request : Request :=
  mkRequest
    (Some "f16684be073432042524784b8845fad85161c541de85338a3764c673431003cb"%string)
    (Object scenario_object).

(** The verifier's clock 301 seconds after the event was stamped. *)
Definition stale_world : World := mkWorld 1700000301000000000 NoFault None [] [].

(** The clock 100 seconds after the event of the scenario was stamped. *)
Definition fresh_world : World := mkWorld 1700000100000000000 NoFault None [] [].

Definition populated (s : string) : bool := negb (String.eqb s EmptyString).

(** One call of [saveWebhookToDatabase]: the event, what the store does
    when asked, and the instant [time.Now()] returns. *)
Record Call : Type := mkCall { c_event : YayaWebhook; c_fault : Fault; c_now : Z }.

Definition Ingest (y : yaya) (c : Call) (d : option Table) : option Table :=
  db (snd (saveWebhookToDatabase y (c_event c)
             (mkWorld (c_now c) (c_fault c) d [] []))).

Definition Ingest_all (y : yaya) (cs : list Call) (d : option Table) : option Table :=
  fold_left (fun d c => Ingest y c d) cs d.

Definition ids (d : option Table) : list string := map id (table_of d).

Definition rows_of (k : string) (d : option Table) : list Row :=
  sql.select_by_id k (table_of d).

Definition succeeded (c : Call) : bool :=
  match c_fault c with
  | NoFault => true
  | _ => false
  end.

(** The calls for identifier [k] that wrote, oldest first. *)
Definition deliveries (k : string) (cs : list Call) : list Call :=
  filter (fun c => succeeded c && String.eqb (ID (c_event c)) k) cs.

(** The row an identifier has after a first write [c1] and a latest write
    [cn]. *)
Definition stored_row (c1 cn : Call) : Row :=
  let e := c_event cn in
  mkRow (ID e) (decimal.String_ (Amount e)) (Currency_ e) (CreatedAtTime e)
        (TimeStamp e) (Cause e) (FullName e) (AccountName e) (InvoiceURL e)
        (c_now c1) (c_now cn).

Definition history_rows (k : string) (cs : list Call) : list Row :=
  match deliveries k cs with
  | [] => []
  | c1 :: rest => [stored_row c1 (last rest c1)]
  end.

(** The same delivery again, 60 seconds later, with another [cause]. *)
Definition redelivered_event : YayaWebhook :=
  mkYayaWebhook "abc123" (decimal.mkDecimal 100 0) "ETB" 1700000000 1700000060
    "Retry" "Abebe Kebede" "abebekebede1" "https://yayawallet.com/en/invoice/xxxx".

Definition sign_text (neg : bool) : string :=
  if neg then "-"%string else EmptyString.

(** Fixed-point text: a sign, the integer digits, and after a point the
    fractional digits when there are any. *)
Definition fixed_text (neg : bool) (ip fp : string) : string :=
  (sign_text neg ++ ip
   ++ match fp with
      | EmptyString => EmptyString
      | _ => String "." fp
      end)%string.

(** Two decimals that denote the same number [value * 10 ^ exp]. *)
Definition same_number (a b : decimal.Decimal) : Prop :=
  let m := Z.min (decimal.exp a) (decimal.exp b) in
  decimal.value a * 10 ^ (decimal.exp a - m)
  = decimal.value b * 10 ^ (decimal.exp b - m).

(** The scenario with its amount written [100.50]. *)
Definition trailing_zero_object : JSONObject :=
  mkJSONObject "abc123" "100.50" "ETB" 1700000000 1700000000 "Testing"
    "Abebe Kebede" "abebekebede1" "https://yayawallet.com/en/invoice/xxxx".

Definition trailing_zero_event : YayaWebhook :=
  mkYayaWebhook "abc123" (decimal.mkDecimal 10050 (-2)) "ETB" 1700000000 1700000000
    "Testing" "Abebe Kebede" "abebekebede1" "https://yayawallet.com/en/invoice/xxxx".

(* ================================================================== *)
(** ** [handler.go], the handlers that read *)

(** The JSON values the read handlers put into their maps, and a map with
    its members in the order the source lists them. *)
Inductive JValue : Type :=
| JString (s : string)
| JInt (n : Z).

Definition JObject : Type := list (string * JValue).

Inductive Payload : Type :=
| PResponse (r : Response)                (* a [Response], JSON-encoded *)
| PText (s : string)                      (* the text [http.Error] prints *)
| PObject (members : JObject)             (* a [map[string]interface{}] *)
| PListing (count : Z) (webhooks : option (list JObject)).
                                          (* [None]: a nil slice, JSON null *)

(** What a handler leaves on its [ResponseWriter]: the HTTP status (200
    unless [WriteHeader] is called), the [Content-Type] the handler set
    itself, and the body. *)
Record Reply : Type := mkReply {
  http_status : Z;
  content_type : option string;
  payload : Payload
}.

Definition StatusNotFound : Z := 404.
Definition StatusInternalServerError : Z := 500.

(** [json.NewEncoder(w).Encode(resp)] on a writer nothing was written to:
    status 200 and no [Content-Type] of the handler's own. *)
Definition encode_reply (r : Response) : Reply :=
  mkReply StatusOK None (PResponse r).

(** [http.Error(w, msg, code)]: plain text, the message and a newline. *)
Definition http_Error (m : string) (code : Z) : Reply :=
  mkReply code (Some "text/plain; charset=utf-8"%string)
    (PText (m ++ String (ascii_of_nat 10) EmptyString)%string).

Definition HealthCheckHandler (y : yaya) : M Reply :=
  ret (encode_reply (mkResponse StatusOK "Server is up and running" EmptyString)).

(** Whether the SELECT of a read handler runs, chosen by the
    environment. *)
Inductive QueryOutcome : Type := QueryRuns | QueryFails.

Inductive ScanResult : Type :=
| ScanRow (r : Row)
| ErrNoRows
| ScanError (e : string).

(** [db.QueryRow("SELECT ... FROM webhooks WHERE id = ?", k).Scan(...)]:
    the first row with that id, [sql.ErrNoRows] without one. *)
Definition QueryRow_Scan (q : QueryOutcome) (k : string) : M ScanResult :=
  fun w =>
    match q with
    | QueryFails => (ScanError "database is locked", w)
    | QueryRuns =>
        match db w with
        | None => (ScanError "no such table: webhooks", w)
        | Some t =>
            match sql.select_by_id k t with
            | [] => (ErrNoRows, w)
            | r :: _ => (ScanRow r, w)
            end
        end
    end.

(** The map the lookup encodes, in the order the source lists its keys. *)
Definition webhook_object (r : Row) : JObject :=
  [("id"%string, JString (id r));
   ("amount"%string, JString (amount r));
   ("currency"%string, JString (currency r));
   ("created_at_time"%string, JInt (created_at_time r));
   ("timestamp"%string, JInt (timestamp r));
   ("cause"%string, JString (cause r));
   ("full_name"%string, JString (full_name r));
   ("account_name"%string, JString (account_name r));
   ("invoice_url"%string, JString (invoice_url r))].

Definition database_error : Reply :=
  http_Error "Database error" StatusInternalServerError.

(** [GetWebhookHandler], on the path of the request URL.  [None] is the
    run-time panic of [path[len("/webhook/"):]] on a path shorter than the
    prefix: nothing is written. *)
Definition GetWebhookHandler (y : yaya) (q : QueryOutcome) (path : string)
  : M (option Reply) :=
  if Nat.ltb (String.length path) (String.length "/webhook/") then ret None
  else
    let webhookID := GoString.drop (String.length "/webhook/") path in
    if String.eqb webhookID EmptyString then
      ret (Some (encode_reply
                   (mkResponse StatusBadRequest EmptyString "webhook ID is required")))
    else
      err <- sql.Open ;;
      match err with
      | Some _ =>
          log_ LevelError "Failed to connect to database" ;;;
          ret (Some database_error)
      | None =>
          err <- sql.Exec_create_table ;;
          match err with
          | Some _ =>
              log_ LevelError "Failed to create table" ;;;
              ret (Some database_error)
          | None =>
              res <- QueryRow_Scan q webhookID ;;
              match res with
              | ErrNoRows =>
                  ret (Some (encode_reply
                               (mkResponse StatusNotFound EmptyString
                                  "webhook not found")))
              | ScanError _ =>
                  log_ LevelError "Failed to query webhook" ;;;
                  ret (Some database_error)
              | ScanRow r =>
                  ret (Some (mkReply StatusOK (Some "application/json"%string)
                               (PObject (webhook_object r))))
              end
          end
      end.

Section Debug.

(** The order [ORDER BY created_at DESC] returns the rows in, and the text
    the driver gives for a [DATETIME] column scanned into a string. *)
Variable order_by_created_at_desc : Table -> Table.
Variable datetime_text : Z -> string.

Definition debug_object (r : Row) : JObject :=
  (webhook_object r
   ++ [("created_at"%string, JString (datetime_text (created_at r)));
       ("updated_at"%string, JString (datetime_text (updated_at r)))])%list.

(** The loop over the rows: [webhooks] starts as a nil slice and every
    row is appended. *)
Definition collect (rows : Table) : option (list JObject) :=
  fold_left
    (fun webhooks r =>
       match webhooks with
       | None => Some [debug_object r]
       | Some l => Some (l ++ [debug_object r])%list
       end)
    rows None.

Definition len_webhooks (webhooks : option (list JObject)) : Z :=
  match webhooks with
  | None => 0
  | Some l => Z.of_nat (List.length l)
  end.

Definition DebugWebhooksHandler (y : yaya) (q : QueryOutcome) : M Reply :=
  err <- sql.Open ;;
  match err with
  | Some _ =>
      log_ LevelError "Failed to connect to database" ;;;
      ret database_error
  | None =>
      err <- sql.Exec_create_table ;;
      match err with
      | Some _ =>
          log_ LevelError "Failed to create table" ;;;
          ret database_error
      | None =>
          fun w =>
            match q, db w with
            | QueryRuns, Some t =>
                let webhooks := collect (order_by_created_at_desc t) in
                (mkReply StatusOK (Some "application/json"%string)
                   (PListing (len_webhooks webhooks) webhooks), w)
            | _, _ =>
                (log_ LevelError "Failed to query webhooks" ;;;
                 ret database_error) w
            end
      end
  end.

End Debug.

(* ================================================================== *)
(** ** The first version of the handler file *)

(** The repository also holds the handler file as it was before the
    debug records were added.  Its [Sprintf] call and its
    [saveWebhookToDatabase] are the ones above, letter for letter, and
    are shared. *)
Module V0.

Definition generateSignature (y : yaya) (secretKey : string) (payload : YayaWebhook)
  : M string :=
  let signedPayload := signedPayload payload in
  let result :=
    Hex.EncodeToString
      (HMAC.Sum (GoString.bytes secretKey) (GoString.bytes signedPayload)) in
  ret result.

Definition verifySignature (y : yaya) (signature : string) (payload : YayaWebhook)
  : M bool :=
  signedPayload <- generateSignature y (SecretKey y) payload ;;
  ret (GoString.eq signature signedPayload).

Definition validateTimestamp (y : yaya) (timestamp : Z) (tolerance : time.Duration)
  : M bool :=
  t <- time_Now ;;
  let now := time.Unix t in
  let diff := sub64 now timestamp in
  ret ((0 <=? diff) && (diff <=? time.Seconds_int64 tolerance)).

Definition YayayWebhookHandler (y : yaya) (s : Sched) (r : Request) : M unit :=
  let signature := Header_Get r in
  if String.eqb signature EmptyString then
    log_ LevelError "Signature is missing" ;;;
    Encode (mkResponse StatusBadRequest EmptyString "signature is missing")
  else
    match Decode (body r) with
    | None =>
        log_ LevelError "Error decoding request" ;;;
        Encode (mkResponse StatusBadRequest EmptyString "invalid data")
    | Some req =>
        isValid <- validateTimestamp y (TimeStamp req) (5 * time.Minute) ;;
        if negb isValid then
          log_ LevelError "Invalid timestamp" ;;;
          Encode (mkResponse StatusBadRequest EmptyString "invalid timestamp")
        else
          isValid <- verifySignature y signature req ;;
          if negb isValid then
            log_ LevelError "Invalid signature" ;;;
            Encode (mkResponse StatusBadRequest EmptyString "invalid signature")
          else
            go_ s
              (err <- saveWebhookToDatabase y req ;;
               match err with
               | Some _ => log_ LevelError "Failed to save webhook to database"
               | None => log_ LevelInfo "Webhook saved to database successfully"
               end)
              (Encode (mkResponse StatusOK "Webhook received successfully" EmptyString))
    end.

End V0.

(** The five records only the later version writes. *)
Definition is_debug_record (l : LogRecord) : bool :=
  existsb (String.eqb (msg l))
    ["Validating timestamp"%string; "Verifying signature"%string;
     "Generating signature"%string; "Signature generated"%string;
     "Signature comparison"%string].

(** A JSON member by key. *)
Fixpoint member (k : string) (o : JObject) : option JValue :=
  match o with
  | [] => None
  | (k', v) :: o' => if String.eqb k' k then Some v else member k o'
  end.


(** The replies of the lookup. *)
Definition not_found : Reply :=
  encode_reply (mkResponse StatusNotFound EmptyString "webhook not found").

Definition id_required : Reply :=
  encode_reply (mkResponse StatusBadRequest EmptyString "webhook ID is required").

Definition found (r : Row) : Reply :=
  mkReply StatusOK (Some "application/json"%string) (PObject (webhook_object r)).

(** The world once table [webhooks] exists. *)
Definition with_table (w : World) : World :=
  mkWorld (clock w) (fault w) (Some (table_of (db w))) (logs w) (wire w).

(** The rows of a listing, none for the nil slice. *)
Definition items (webhooks : option (list JObject)) : list JObject :=
  match webhooks with
  | Some l => l
  | None => []
  end.

(** Integer digits as [String] writes them: at least one digit, and no
    zero in front of another digit. *)
Definition canon_digits (s : string) : bool :=
  all_chars strconv.is_digit s
  && match s with
     | EmptyString => false
     | String c r => negb (Ascii.eqb c "0") || String.eqb r EmptyString
     end.

(** A string without the zeros it starts with. *)
Fixpoint lstrip (s : string) : string :=
  match s with
  | EmptyString => EmptyString
  | String c r => if Ascii.eqb c "0" then lstrip r else s
  end.

(** Canonical fixed-point text, the form [Decimal.String] writes: an
    optional [-], integer digits without superfluous zeros and, after a
    point, fractional digits that do not end in a zero; no exponent, no
    [+], and no [-] in front of zero. *)
Definition canonical_text (t : string) : Prop :=
  exists (neg : bool) (ip fp : string) (N : Z),
    t = fixed_text neg ip fp
    /\ canon_digits ip = true
    /\ all_chars strconv.is_digit fp = true
    /\ decimal.trim_zeros fp = fp
    /\ Z.of_nat (String.length fp) <= 2 ^ 31
    /\ strconv.parse_digits (ip ++ fp) 0 = Some N
    /\ (neg = true -> 0 < N).

(* ================================================================== *)
(** * Properties *)

(** ** The library models on known values *)

Example sha256_abc :
  Hex.EncodeToString (SHA256.Sum256 (GoString.bytes "abc"))
  = "ba7816bf8f01cfea414140de5dae2223b00361a396177a9cb410ff61f20015ad".
Proof. vm_compute. reflexivity. Qed.

Example sha256_empty :
  Hex.EncodeToString (SHA256.Sum256 [])
  = "e3b0c44298fc1c149afbf4c8996fb92427ae41e4649b934ca495991b7852b855".
Proof. vm_compute. reflexivity. Qed.

Example sha256_two_blocks :
  Hex.EncodeToString (SHA256.Sum256 (GoString.bytes
    "abcdbcdecdefdefgefghfghighijhijkijkljklmklmnlmnomnopnopq"))
  = "248d6a61d20638b8e5c026930c3e6039a33ce45964ff2167f6ecedd419db06c1".
Proof. vm_compute. reflexivity. Qed.

Example hmac_rfc4231_case2 :
  Hex.EncodeToString
    (HMAC.Sum (GoString.bytes "Jefe") (GoString.bytes "what do ya want for nothing?"))
  = "5bdcc146bf60754e6a042426089575c75a003f089d2739839dec58b964ec3843".
Proof. vm_compute. reflexivity. Qed.

Example FormatInt_1700000000 : strconv.FormatInt 1700000000 = "1700000000".
Proof. reflexivity. Qed.
Example FormatInt_neg : strconv.FormatInt (-305) = "-305".
Proof. reflexivity. Qed.
Example FormatInt_zero : strconv.FormatInt 0 = "0".
Proof. reflexivity. Qed.
Example parse_signed_plus : strconv.parse_signed "+0100" = Some 100.
Proof. reflexivity. Qed.
Example parse_signed_bad : strconv.parse_signed "1_0" = None.
Proof. reflexivity. Qed.

Example Sprintf_mixed :
  fmt.Sprintf "id=%s n=%d" [fmt.AString "x"; fmt.AInt64 (-7)] = Some "id=x n=-7".
Proof. reflexivity. Qed.

Example decimal_100 : option_map decimal.String_ (decimal.NewFromString "100") = Some "100".
Proof. reflexivity. Qed.
Example decimal_trailing_zero :
  option_map decimal.String_ (decimal.NewFromString "100.50") = Some "100.5".
Proof. reflexivity. Qed.
Example decimal_scientific :
  option_map decimal.String_ (decimal.NewFromString "1.5e3") = Some "1500".
Proof. reflexivity. Qed.
Example decimal_small :
  option_map decimal.String_ (decimal.NewFromString "-0.0250") = Some "-0.025".
Proof. reflexivity. Qed.
Example decimal_two_points : decimal.NewFromString "1.2.3" = None.
Proof. reflexivity. Qed.
Example decimal_quoted :
  option_map decimal.String_
    (decimal.UnmarshalJSON (String decimal.dquote ("12.00" ++ String decimal.dquote EmptyString)))
  = Some "12".
Proof. reflexivity. Qed.

(** ** String equality *)

Lemma GoString_eq_true (a b : string) : GoString.eq a b = true <-> a = b.
Proof. unfold GoString.eq. apply String.eqb_eq. Qed.

Lemma GoString_eq_refl (a : string) : GoString.eq a a = true.
Proof. now apply GoString_eq_true. Qed.

Lemma GoString_eq_false (a b : string) : GoString.eq a b = false <-> a <> b.
Proof.
  split.
  - intros H Heq. apply GoString_eq_true in Heq. congruence.
  - intros H. destruct (GoString.eq a b) eqn:E; [|reflexivity].
    apply GoString_eq_true in E. contradiction.
Qed.

(** ** The effectful functions, run *)

Lemma add_logs_app (l1 l2 : list LogRecord) (w : World) :
  add_logs l2 (add_logs l1 w) = add_logs (l1 ++ l2)%list w.
Proof. unfold add_logs; simpl. now rewrite <- app_assoc. Qed.

Lemma generateSignature_run (y : yaya) (k : string) (p : YayaWebhook) (w : World) :
  generateSignature y k p w
  = (signature_of k p,
     add_logs [mkLog LevelInfo "Generating signature";
               mkLog LevelInfo "Signature generated"] w).
Proof.
  unfold generateSignature, bind, log_, ret, add_logs; simpl.
  now rewrite <- app_assoc.
Qed.

Lemma verifySignature_run (y : yaya) (sig : string) (p : YayaWebhook) (w : World) :
  verifySignature y sig p w
  = (GoString.eq sig (signature_of (SecretKey y) p),
     add_logs [mkLog LevelInfo "Verifying signature";
               mkLog LevelInfo "Generating signature";
               mkLog LevelInfo "Signature generated";
               mkLog LevelInfo "Signature comparison"] w).
Proof.
  unfold verifySignature, bind at 1.
  unfold log_ at 1. unfold bind at 1. rewrite generateSignature_run.
  unfold bind, log_, ret, add_logs; simpl.
  now rewrite <- !app_assoc.
Qed.

Lemma validateTimestamp_run (y : yaya) (ts : Z) (tol : time.Duration) (w : World) :
  validateTimestamp y ts tol w
  = ((0 <=? sub64 (time.Unix (clock w)) ts)
     && (sub64 (time.Unix (clock w)) ts <=? time.Seconds_int64 tol),
     add_logs [mkLog LevelInfo "Validating timestamp"] w).
Proof. reflexivity. Qed.

(** ** Decimal text of integers *)

Lemma digit_char_ok (d : Z) :
  0 <= d < 10 ->
  strconv.is_digit (strconv.digit_char d) = true
  /\ strconv.digit_val (strconv.digit_char d) = d.
Proof.
  intros H.
  assert (d = 0 \/ d = 1 \/ d = 2 \/ d = 3 \/ d = 4 \/ d = 5 \/ d = 6 \/ d = 7
          \/ d = 8 \/ d = 9) as Hd by lia.
  repeat (destruct Hd as [-> | Hd]; [split; reflexivity|]).
  subst d; split; reflexivity.
Qed.

Lemma format_loop_S (f : nat) (n : Z) (acc : string) :
  strconv.format_loop (S f) n acc
  = if n <? 10 then String (strconv.digit_char (n mod 10)) acc
    else strconv.format_loop f (n / 10) (String (strconv.digit_char (n mod 10)) acc).
Proof. reflexivity. Qed.

Lemma format_loop_parse (f : nat) :
  forall n acc, 0 <= n < 2 ^ Z.of_nat (S f) ->
  strconv.parse_digits (strconv.format_loop (S f) n acc) 0
  = strconv.parse_digits acc n.
Proof.
  induction f as [|f IH]; intros n acc Hn.
  - change (2 ^ Z.of_nat 1) with 2 in Hn.
    simpl strconv.format_loop.
    destruct (Z.ltb_spec n 10) as [_|?]; [|lia].
    simpl. rewrite Z.mod_small by lia.
    destruct (digit_char_ok n) as [-> ->]; [lia|reflexivity].
  - rewrite format_loop_S.
    assert (0 <= n mod 10 < 10) as Hm by (apply Z.mod_pos_bound; lia).
    destruct (digit_char_ok _ Hm) as [Hd Hv].
    destruct (Z.ltb_spec n 10) as [Hlt|Hge].
    + cbn [strconv.parse_digits]. rewrite Hd, Hv, Z.mod_small by lia. reflexivity.
    + rewrite IH.
      * cbn [strconv.parse_digits]. rewrite Hd, Hv.
        f_equal. pose proof (Z.div_mod n 10). lia.
      * rewrite Nat2Z.inj_succ, Z.pow_succ_r in Hn by lia.
        split; [apply Z.div_pos; lia|].
        apply Z.div_lt_upper_bound; lia.
Qed.

Lemma FormatUint_parse (n : Z) :
  0 <= n -> strconv.parse_digits (strconv.FormatUint n) 0 = Some n.
Proof.
  intros Hn. unfold strconv.FormatUint.
  rewrite format_loop_parse; [reflexivity|].
  split; [assumption|].
  destruct (Z.eq_dec n 0) as [->|Hnz]; [reflexivity|].
  rewrite Nat2Z.inj_succ, Z2Nat.id by apply Z.log2_nonneg.
  apply Z.log2_spec. lia.
Qed.

(** The first byte [format_loop] writes is a digit. *)
Lemma format_loop_head (f : nat) :
  forall n acc, 0 <= n ->
  exists c r, strconv.format_loop (S f) n acc = String c r
              /\ (strconv.is_digit c = true \/ strconv.format_loop (S f) n acc = acc).
Proof.
  induction f as [|f IH]; intros n acc Hn.
  - simpl.
    assert (0 <= n mod 10 < 10) as Hm by (apply Z.mod_pos_bound; lia).
    destruct (digit_char_ok _ Hm) as [Hd _].
    destruct (n <? 10); eexists; eexists; split; try reflexivity; now left.
  - rewrite format_loop_S.
    assert (0 <= n mod 10 < 10) as Hm by (apply Z.mod_pos_bound; lia).
    destruct (digit_char_ok _ Hm) as [Hd _].
    destruct (Z.ltb_spec n 10) as [Hlt|Hge].
    + eexists; eexists; split; [reflexivity|now left].
    + destruct (IH (n / 10) (String (strconv.digit_char (n mod 10)) acc))
        as (c & r & E & [Hc|Hacc]).
      * apply Z.div_pos; lia.
      * exists c, r. split; [assumption|now left].
      * exists c, r. split; [assumption|left].
        rewrite Hacc in E. injection E as <- _. assumption.
Qed.

Lemma FormatUint_head (n : Z) :
  0 <= n ->
  exists c r, strconv.FormatUint n = String c r /\ strconv.is_digit c = true.
Proof.
  intros Hn. unfold strconv.FormatUint.
  destruct (format_loop_head (Z.to_nat (Z.log2 n)) n EmptyString Hn)
    as (c & r & E & [Hc|Hacc]).
  - now exists c, r.
  - rewrite Hacc in E. discriminate.
Qed.

(** [FormatInt] writes plain decimal text: reading it back as a signed
    decimal integer gives the number. *)
Lemma FormatInt_parse (i : Z) : strconv.parse_signed (strconv.FormatInt i) = Some i.
Proof.
  unfold strconv.FormatInt.
  destruct (Z.ltb_spec i 0) as [Hneg|Hpos].
  - destruct (FormatUint_head (- i)) as (c & r & E & Hc); [lia|].
    pose proof (FormatUint_parse (- i)) as P. rewrite E in *.
    change (strconv.parse_signed (String "-" (String c r)))
      with (match strconv.parse_digits (String c r) 0 with
            | Some n => Some (- n)
            | None => None
            end).
    rewrite P by lia. f_equal. lia.
  - destruct (FormatUint_head i Hpos) as (c & r & E & Hc).
    unfold strconv.parse_signed. rewrite E.
    assert (Ascii.eqb c "-" = false) as Hm.
    { destruct (Ascii.eqb_spec c "-") as [->|]; [discriminate Hc|reflexivity]. }
    assert (Ascii.eqb c "+" = false) as Hp.
    { destruct (Ascii.eqb_spec c "+") as [->|]; [discriminate Hc|reflexivity]. }
    rewrite Hm, Hp. simpl orb. cbv iota.
    rewrite <- E, FormatUint_parse by assumption. reflexivity.
Qed.

(** ** Shape of the digest *)

Lemma digit_lower_hex (n : Z) : lower_hex (Hex.digit n) = true.
Proof.
  unfold Hex.digit.
  generalize (Z.to_nat n). intros k.
  do 16 (destruct k as [|k]; [reflexivity|]). reflexivity.
Qed.

Lemma EncodeToString_lower (l : list Z) :
  all_chars lower_hex (Hex.EncodeToString l) = true.
Proof.
  induction l as [|v l IH]; [reflexivity|].
  cbn [Hex.EncodeToString all_chars].
  now rewrite !digit_lower_hex, IH.
Qed.

Lemma EncodeToString_length (l : list Z) :
  String.length (Hex.EncodeToString l) = (2 * List.length l)%nat.
Proof.
  induction l as [|v l IH]; [reflexivity|].
  cbn [Hex.EncodeToString String.length List.length]. rewrite IH. lia.
Qed.

Lemma block_length (h blk : list Z) :
  List.length h = 8%nat -> List.length (SHA256.block h blk) = 8%nat.
Proof.
  intros Hh. unfold SHA256.block.
  rewrite length_map, length_combine, Hh. reflexivity.
Qed.

Lemma blocks_length (n : nat) :
  forall h bs, List.length h = 8%nat -> List.length (SHA256.blocks n h bs) = 8%nat.
Proof.
  induction n as [|n IH]; intros h bs Hh; [assumption|].
  cbn [SHA256.blocks]. apply IH. now apply block_length.
Qed.

Lemma flat_map_word_bytes_length (l : list Z) :
  List.length (flat_map SHA256.word_bytes l) = (4 * List.length l)%nat.
Proof.
  induction l as [|v l IH]; [reflexivity|].
  cbn [flat_map]. rewrite length_app, IH. cbn [SHA256.word_bytes List.length]. lia.
Qed.

Lemma Sum256_length (msg : list Z) : List.length (SHA256.Sum256 msg) = 32%nat.
Proof.
  unfold SHA256.Sum256.
  rewrite flat_map_word_bytes_length, blocks_length; reflexivity.
Qed.

Lemma HMAC_Sum_length (key msg : list Z) : List.length (HMAC.Sum key msg) = 32%nat.
Proof. unfold HMAC.Sum. apply Sum256_length. Qed.

Lemma signature_of_shape (k : string) (p : YayaWebhook) :
  String.length (signature_of k p) = 64%nat
  /\ all_chars lower_hex (signature_of k p) = true.
Proof.
  unfold signature_of. split.
  - now rewrite EncodeToString_length, HMAC_Sum_length.
  - apply EncodeToString_lower.
Qed.

(** ** The signed string *)

Lemma append_empty_r (s : string) : (s ++ EmptyString)%string = s.
Proof. induction s as [|c s IH]; [reflexivity|]. simpl. now rewrite IH. Qed.

Lemma signedPayload_concat (p : YayaWebhook) :
  signedPayload p
  = (ID p ++ decimal.String_ (Amount p) ++ Currency_ p
     ++ strconv.FormatInt (CreatedAtTime p) ++ strconv.FormatInt (TimeStamp p)
     ++ Cause p ++ FullName p ++ AccountName p ++ InvoiceURL p)%string.
Proof.
  unfold signedPayload, signature_args.
  cbn -[strconv.FormatInt decimal.String_ append].
  now rewrite append_empty_r.
Qed.

Lemma scenario_decodes : Decode (Object scenario_object) = Some scenario_event.
Proof. reflexivity. Qed.

(** C4. For every event, [generateSignature] signs the fields joined in
    the order id, amount, currency, created_at_time, timestamp, cause,
    full_name, account_name, invoice_url, the two integers in plain
    decimal text, and returns the HMAC-SHA256 of that string under the
    secret as 64 lowercase hexadecimal digits; for the event of the
    end-to-end scenario the joined string is the one the specification
    gives. *)
Theorem generateSignature_concatenation_hmac
  (y : yaya) (secretKey : string) (payload : YayaWebhook) (w : World) :
  let joined :=
    (ID payload ++ decimal.String_ (Amount payload) ++ Currency_ payload
     ++ strconv.FormatInt (CreatedAtTime payload)
     ++ strconv.FormatInt (TimeStamp payload)
     ++ Cause payload ++ FullName payload ++ AccountName payload
     ++ InvoiceURL payload)%string in
  let result := fst (generateSignature y secretKey payload w) in
  signedPayload payload = joined
  /\ result
     = Hex.EncodeToString
         (HMAC.Sum (GoString.bytes secretKey) (GoString.bytes joined))
  /\ String.length result = 64%nat
  /\ all_chars lower_hex result = true
  /\ strconv.parse_signed (strconv.FormatInt (CreatedAtTime payload))
     = Some (CreatedAtTime payload)
  /\ strconv.parse_signed (strconv.FormatInt (TimeStamp payload))
     = Some (TimeStamp payload)
  /\ signedPayload scenario_event
     = "abc123100ETB17000000001700000000TestingAbebe Kebedeabebekebede1https://yayawallet.com/en/invoice/xxxx"%string.
Proof.
  cbv zeta. rewrite generateSignature_run. cbn [fst].
  split; [apply signedPayload_concat|].
  split; [unfold signature_of; now rewrite signedPayload_concat|].
  split; [apply signature_of_shape|].
  split; [apply signature_of_shape|].
  split; [apply FormatInt_parse|].
  split; [apply FormatInt_parse|].
  vm_compute. reflexivity.
Qed.

(** The digest of the end-to-end scenario under the secret of the
    scenario. *)
Example scenario_signature :
  signature_of "secret" scenario_event
  = "f16684be073432042524784b8845fad85161c541de85338a3764c673431003cb"%string.
Proof. vm_compute. reflexivity. Qed.

(** ** C10: the signed string does not determine the event *)

(** C10. Signature reconstruction is not injective: two distinct events
    that split the same characters differently between [cause] and
    [full_name] are joined into the same string, so under every secret
    they get the same signature, every token is judged the same for both,
    and the token that is valid for one authenticates the other. *)
Theorem generateSignature_not_injective :
  exists e1 e2 : YayaWebhook,
    e1 <> e2
    /\ Cause e1 <> Cause e2
    /\ FullName e1 <> FullName e2
    /\ signedPayload e1 = signedPayload e2
    /\ (forall y secretKey w w',
          fst (generateSignature y secretKey e1 w)
          = fst (generateSignature y secretKey e2 w'))
    /\ (forall y token w w',
          fst (verifySignature y token e1 w) = fst (verifySignature y token e2 w'))
    /\ (forall y w w',
          fst (verifySignature y (fst (generateSignature y (SecretKey y) e1 w)) e2 w')
          = true).
Proof.
  exists split_early, split_late.
  assert (signedPayload split_early = signedPayload split_late) as Hsp
    by (vm_compute; reflexivity).
  assert (forall k, signature_of k split_early = signature_of k split_late) as Hsig
    by (intros k; unfold signature_of; now rewrite Hsp).
  split; [discriminate|].
  split; [discriminate|].
  split; [discriminate|].
  split; [exact Hsp|].
  split; [intros; rewrite !generateSignature_run; apply Hsig|].
  split; [intros; rewrite !verifySignature_run; cbn [fst]; now rewrite Hsig|].
  intros. rewrite verifySignature_run, generateSignature_run. cbn [fst].
  rewrite Hsig. apply GoString_eq_refl.
Qed.

(** ** How the token is compared *)

(** [verifySignature] answers true exactly when the token is the string
    [generateSignature] returns, the lowercase hexadecimal HMAC. *)
Lemma verifySignature_true_iff
  (y : yaya) (signature : string) (payload : YayaWebhook) (w : World) :
  fst (verifySignature y signature payload w) = true
  <-> signature = fst (generateSignature y (SecretKey y) payload w).
Proof.
  rewrite generateSignature_run, verifySignature_run. cbn [fst].
  apply GoString_eq_true.
Qed.

(** ** C3: the freshness window *)

Lemma wrap64_small (z : Z) : MinInt64 <= z <= MaxInt64 -> wrap64 z = z.
Proof.
  unfold wrap64, MinInt64, MaxInt64. intros H.
  rewrite Z.mod_small; lia.
Qed.

Lemma wrap64_above (z : Z) :
  MaxInt64 < z <= MaxInt64 + 2 ^ 64 -> wrap64 z = z - 2 ^ 64.
Proof.
  unfold wrap64, MaxInt64. intros H.
  replace (z + 2 ^ 63) with (z - 2 ^ 63 + 1 * 2 ^ 64) by lia.
  rewrite Z_mod_plus_full, Z.mod_small; lia.
Qed.

Lemma tolerance_seconds : time.Seconds_int64 (5 * time.Minute) = 300.
Proof. reflexivity. Qed.

Lemma validateTimestamp_iff (y : yaya) (ts : Z) (w : World) :
  0 <= time.Unix (clock w) < MaxInt64 ->
  MinInt64 <= ts <= MaxInt64 ->
  (fst (validateTimestamp y ts (5 * time.Minute) w) = true
   <-> 0 <= time.Unix (clock w) - ts <= 300).
Proof.
  intros Hnow Hts. rewrite validateTimestamp_run. cbn [fst].
  rewrite tolerance_seconds. unfold sub64.
  set (now := time.Unix (clock w)) in *.
  unfold MinInt64, MaxInt64 in *.
  destruct (Z_le_gt_dec (now - ts) (2 ^ 63 - 1)) as [Hle|Hgt].
  - rewrite wrap64_small by (unfold MinInt64, MaxInt64; lia).
    rewrite andb_true_iff, Z.leb_le, Z.leb_le. reflexivity.
  - rewrite wrap64_above by (unfold MaxInt64; lia).
    rewrite andb_true_iff, Z.leb_le, Z.leb_le. lia.
Qed.

(** C3. With the five-minute tolerance the handler passes, the freshness
    check accepts a timestamp exactly when [0 <= now - timestamp <= 300]:
    for a clock reading [T] it accepts [T] and [T - 300] and rejects
    [T - 301] and [T + 1]. *)
Theorem validateTimestamp_window (y : yaya) (timestamp : Z) (w : World) :
  let T := time.Unix (clock w) in
  0 <= T < MaxInt64 ->
  in_int64 timestamp = true ->
  (fst (validateTimestamp y timestamp (5 * time.Minute) w) = true
   <-> 0 <= T - timestamp <= 300)
  /\ time.Seconds_int64 (5 * time.Minute) = 300
  /\ fst (validateTimestamp y T (5 * time.Minute) w) = true
  /\ fst (validateTimestamp y (T - 300) (5 * time.Minute) w) = true
  /\ fst (validateTimestamp y (T - 301) (5 * time.Minute) w) = false
  /\ fst (validateTimestamp y (T + 1) (5 * time.Minute) w) = false.
Proof.
  intros T HT Hts.
  unfold in_int64 in Hts. apply andb_true_iff in Hts.
  rewrite !Z.leb_le in Hts.
  assert (forall ts, MinInt64 <= ts <= MaxInt64 ->
            ~ 0 <= T - ts <= 300 ->
            fst (validateTimestamp y ts (5 * time.Minute) w) = false) as Hrej.
  { intros ts Hr Hn.
    destruct (fst (validateTimestamp y ts (5 * time.Minute) w)) eqn:E;
      [|reflexivity].
    apply validateTimestamp_iff in E; [contradiction|exact HT|exact Hr]. }
  unfold MinInt64, MaxInt64 in *.
  split; [apply validateTimestamp_iff; unfold MinInt64, MaxInt64; [exact HT|exact Hts]|].
  split; [reflexivity|].
  split; [apply validateTimestamp_iff; unfold MinInt64, MaxInt64; fold T; lia|].
  split; [apply validateTimestamp_iff; unfold MinInt64, MaxInt64; fold T; lia|].
  split; apply Hrej; lia.
Qed.

Lemma validateTimestamp_window_witness :
  let w := mkWorld 1700000100500000000 NoFault None [] [] in
  fst (validateTimestamp (mkYaya "secret") 1700000000 (5 * time.Minute) w) = true
  <-> 0 <= time.Unix (clock w) - 1700000000 <= 300.
Proof.
  intros w.
  apply (validateTimestamp_window (mkYaya "secret") 1700000000 w).
  - vm_compute. split; [discriminate|reflexivity].
  - reflexivity.
Defined.

(** ** The handler, path by path *)

Lemma saveWebhookToDatabase_run (y : yaya) (e : YayaWebhook) (w : World) :
  saveWebhookToDatabase y e w
  = match fault w with
    | OpenFails =>
        (Some "failed to create table: unable to open database file"%string, w)
    | CreateTableFails =>
        (Some "failed to create table: database is locked"%string, w)
    | InsertFails =>
        (Some "failed to insert webhook: constraint failed"%string,
         mkWorld (clock w) (fault w) (Some (table_of (db w))) (logs w) (wire w))
    | NoFault =>
        (None,
         mkWorld (clock w) (fault w)
           (Some (sql.upsert (row_of e (clock w)) (table_of (db w))))
           (logs w) (wire w))
    end.
Proof.
  destruct w as [c f d l o]. destruct f, d; reflexivity.
Qed.

Lemma ingestion_task_effect (y : yaya) (req : YayaWebhook) (w : World) :
  let w' := snd (ingestion_task y req w) in
  wire w' = wire w
  /\ clock w' = clock w
  /\ fault w' = fault w
  /\ logs w' = (logs w ++ [outcome_record (fault w)])%list.
Proof.
  unfold ingestion_task, bind. rewrite saveWebhookToDatabase_run.
  destruct w as [c f d l o]. destruct f; cbn; repeat split; reflexivity.
Qed.

Section Paths.

Variables (y : yaya) (s : Sched) (r : Request) (w : World).

Lemma handler_missing_signature :
  Header_Get r = EmptyString ->
  YayayWebhookHandler y s r w
  = (tt, add_wire (rejection "signature is missing")
           (add_logs [mkLog LevelError "Signature is missing"] w)).
Proof.
  intros H. unfold YayayWebhookHandler. rewrite H. reflexivity.
Qed.

Lemma header_present : Header_Get r <> EmptyString ->
  String.eqb (Header_Get r) EmptyString = false.
Proof. intros H. now apply String.eqb_neq. Qed.

Lemma handler_invalid_data :
  Header_Get r <> EmptyString ->
  Decode (body r) = None ->
  YayayWebhookHandler y s r w
  = (tt, add_wire (rejection "invalid data")
           (add_logs [mkLog LevelError "Error decoding request"] w)).
Proof.
  intros H D. unfold YayayWebhookHandler.
  rewrite (header_present H), D. reflexivity.
Qed.

Lemma handler_invalid_timestamp (req : YayaWebhook) :
  Header_Get r <> EmptyString ->
  Decode (body r) = Some req ->
  fst (validateTimestamp y (TimeStamp req) (5 * time.Minute) w) = false ->
  YayayWebhookHandler y s r w
  = (tt, add_wire (rejection "invalid timestamp")
           (add_logs [mkLog LevelInfo "Validating timestamp";
                      mkLog LevelError "Invalid timestamp"] w)).
Proof.
  intros H D V. unfold YayayWebhookHandler.
  rewrite (header_present H), D. unfold bind at 1.
  rewrite validateTimestamp_run in *. cbn [fst] in V. rewrite V.
  cbn [negb]. unfold bind, log_, Encode, add_wire, add_logs; cbn.
  now rewrite <- app_assoc.
Qed.

Lemma handler_invalid_signature (req : YayaWebhook) :
  Header_Get r <> EmptyString ->
  Decode (body r) = Some req ->
  fst (validateTimestamp y (TimeStamp req) (5 * time.Minute) w) = true ->
  fst (verifySignature y (Header_Get r) req w) = false ->
  YayayWebhookHandler y s r w
  = (tt, add_wire (rejection "invalid signature")
           (add_logs (auth_logs ++ [mkLog LevelError "Invalid signature"]) w)).
Proof.
  intros H D V G. unfold YayayWebhookHandler.
  rewrite (header_present H), D. unfold bind at 1.
  rewrite validateTimestamp_run in *. cbn [fst] in V. rewrite V.
  cbn [negb]. unfold bind at 1.
  rewrite verifySignature_run in *. cbn [fst] in G. rewrite G.
  cbn [negb]. unfold bind, log_, Encode, add_wire, add_logs; cbn.
  now rewrite <- !app_assoc.
Qed.

Lemma handler_accepts (req : YayaWebhook) :
  Header_Get r <> EmptyString ->
  Decode (body r) = Some req ->
  fst (validateTimestamp y (TimeStamp req) (5 * time.Minute) w) = true ->
  fst (verifySignature y (Header_Get r) req w) = true ->
  YayayWebhookHandler y s r w
  = go_ s (ingestion_task y req) (Encode success) (add_logs auth_logs w).
Proof.
  intros H D V G. unfold YayayWebhookHandler.
  rewrite (header_present H), D. unfold bind at 1.
  rewrite validateTimestamp_run in *. cbn [fst] in V. rewrite V.
  cbn [negb]. unfold bind at 1.
  rewrite verifySignature_run in *. cbn [fst] in G. rewrite G.
  cbn [negb]. rewrite add_logs_app. reflexivity.
Qed.

End Paths.

Lemma go_ingestion_effect (y : yaya) (s : Sched) (req : YayaWebhook) (w : World) :
  let w' := snd (go_ s (ingestion_task y req) (Encode success) w) in
  wire w' = (wire w ++ [success])%list
  /\ logs w' = (logs w ++ [outcome_record (fault w)])%list.
Proof.
  destruct s; unfold go_, bind.
  - pose proof (ingestion_task_effect y req w) as E.
    destruct (ingestion_task y req w) as [[] w1]. cbn [snd] in *.
    destruct E as (Hw & _ & _ & Hl). cbn. now rewrite Hw, Hl.
  - cbn [Encode].
    pose proof (ingestion_task_effect y req (add_wire success w)) as E.
    fold (add_wire success w).
    destruct (ingestion_task y req (add_wire success w)) as [[] w1]. cbn [snd] in *.
    destruct E as (Hw & _ & _ & Hl). now rewrite Hw, Hl.
Qed.

(** ** C2: the order of the checks *)

(** C2. The handler checks, in this order, that the signature header is
    present, that the body decodes, that the timestamp is fresh and that
    the signature matches.  The first check that fails writes its own
    rejection and nothing after it runs: the log holds no record of a later
    check.  A stale request is answered [invalid timestamp] whatever its
    signature, a correct one included, and the log shows that
    [verifySignature] was not entered.  The four rejections differ. *)
Theorem YayayWebhookHandler_check_order
  (y : yaya) (s : Sched) (r : Request) (w : World) :
  let w' := snd (YayayWebhookHandler y s r w) in
  (Header_Get r = EmptyString ->
     wire w' = (wire w ++ [rejection "signature is missing"])%list
     /\ logs w' = (logs w ++ [mkLog LevelError "Signature is missing"])%list)
  /\ (Header_Get r <> EmptyString -> Decode (body r) = None ->
        wire w' = (wire w ++ [rejection "invalid data"])%list
        /\ logs w' = (logs w ++ [mkLog LevelError "Error decoding request"])%list)
  /\ (forall req,
        Header_Get r <> EmptyString -> Decode (body r) = Some req ->
        fst (validateTimestamp y (TimeStamp req) (5 * time.Minute) w) = false ->
        wire w' = (wire w ++ [rejection "invalid timestamp"])%list
        /\ logs w' = (logs w ++ [mkLog LevelInfo "Validating timestamp";
                                 mkLog LevelError "Invalid timestamp"])%list
        /\ db w' = db w)
  /\ (forall req,
        Header_Get r <> EmptyString -> Decode (body r) = Some req ->
        fst (validateTimestamp y (TimeStamp req) (5 * time.Minute) w) = true ->
        fst (verifySignature y (Header_Get r) req w) = false ->
        wire w' = (wire w ++ [rejection "invalid signature"])%list
        /\ logs w' = (logs w ++ auth_logs
                              ++ [mkLog LevelError "Invalid signature"])%list
        /\ db w' = db w)
  /\ (forall req,
        Header_Get r <> EmptyString -> Decode (body r) = Some req ->
        fst (validateTimestamp y (TimeStamp req) (5 * time.Minute) w) = true ->
        fst (verifySignature y (Header_Get r) req w) = true ->
        wire w' = (wire w ++ [success])%list)
  /\ NoDup [rejection "signature is missing"; rejection "invalid data";
            rejection "invalid timestamp"; rejection "invalid signature"].
Proof.
  cbv zeta. repeat apply conj.
  - intros H. rewrite handler_missing_signature by assumption.
    split; reflexivity.
  - intros H D. rewrite handler_invalid_data by assumption.
    split; reflexivity.
  - intros req H D V. rewrite (handler_invalid_timestamp y s r w req) by assumption.
    repeat split; reflexivity.
  - intros req H D V G.
    rewrite (handler_invalid_signature y s r w req) by assumption.
    repeat split; reflexivity.
  - intros req H D V G. rewrite (handler_accepts y s r w req) by assumption.
    apply (go_ingestion_effect y s req (add_logs auth_logs w)).
  - repeat constructor; cbn; intuition discriminate.
Qed.

Lemma YayayWebhookHandler_check_order_witness :
  let w' := snd (YayayWebhookHandler (mkYaya "secret") TaskLast scenario_request
                   stale_world) in
  fst (verifySignature (mkYaya "secret") (Header_Get scenario_request)
         scenario_event stale_world) = true
  /\ wire w' = [rejection "invalid timestamp"]
  /\ logs w' = [mkLog LevelInfo "Validating timestamp";
                mkLog LevelError "Invalid timestamp"]
  /\ db w' = None.
Proof.
  split; [vm_compute; reflexivity|].
  pose proof (YayayWebhookHandler_check_order (mkYaya "secret") TaskLast
                scenario_request stale_world) as (_ & _ & H & _).
  apply (H scenario_event).
  - discriminate.
  - reflexivity.
  - vm_compute. reflexivity.
Defined.

(** ** C8: the answer does not depend on the ingestion *)

Lemma validateTimestamp_with_fault (y : yaya) (ts : Z) (tol : time.Duration)
      (f : Fault) (w : World) :
  fst (validateTimestamp y ts tol (with_fault f w))
  = fst (validateTimestamp y ts tol w).
Proof. reflexivity. Qed.

Lemma verifySignature_with_fault (y : yaya) (sig : string) (p : YayaWebhook)
      (f : Fault) (w : World) :
  fst (verifySignature y sig p (with_fault f w)) = fst (verifySignature y sig p w).
Proof. now rewrite !verifySignature_run. Qed.

(** C8. A request that passes every check is answered with the success
    response, once, whatever the store does and whenever the detached
    ingestion runs: a failure to open the store, to create the table or
    to write the row only adds an error record to the log. *)
Theorem success_response_independent_of_ingestion
  (y : yaya) (r : Request) (req : YayaWebhook) (w : World) :
  Header_Get r <> EmptyString ->
  Decode (body r) = Some req ->
  fst (validateTimestamp y (TimeStamp req) (5 * time.Minute) w) = true ->
  fst (verifySignature y (Header_Get r) req w) = true ->
  (forall s f,
     let w' := snd (YayayWebhookHandler y s r (with_fault f w)) in
     wire w' = (wire w ++ [success])%list
     /\ logs w' = (logs w ++ auth_logs ++ [outcome_record f])%list
     /\ (f <> NoFault ->
         outcome_record f = mkLog LevelError "Failed to save webhook to database"))
  /\ (forall s1 f1 s2 f2,
        wire (snd (YayayWebhookHandler y s1 r (with_fault f1 w)))
        = wire (snd (YayayWebhookHandler y s2 r (with_fault f2 w)))).
Proof.
  intros H D V G.
  assert (forall s f,
            wire (snd (YayayWebhookHandler y s r (with_fault f w)))
            = (wire w ++ [success])%list
            /\ logs (snd (YayayWebhookHandler y s r (with_fault f w)))
               = (logs w ++ auth_logs ++ [outcome_record f])%list) as K.
  { intros s f.
    rewrite <- (validateTimestamp_with_fault y _ _ f w) in V.
    rewrite <- (verifySignature_with_fault y _ _ f w) in G.
    rewrite (handler_accepts y s r (with_fault f w) req H D V G).
    destruct (go_ingestion_effect y s req (add_logs auth_logs (with_fault f w)))
      as [Hw Hl].
    split; [exact Hw|]. rewrite Hl. cbn. now rewrite <- app_assoc. }
  split.
  - intros s f. cbv zeta. destruct (K s f) as [Hw Hl].
    split; [exact Hw|]. split; [exact Hl|].
    destruct f; [congruence|reflexivity..].
  - intros s1 f1 s2 f2.
    destruct (K s1 f1) as [-> _]. destruct (K s2 f2) as [-> _]. reflexivity.
Qed.

Lemma success_response_independent_of_ingestion_witness :
  wire (snd (YayayWebhookHandler (mkYaya "secret") TaskFirst scenario_request
               (with_fault InsertFails fresh_world)))
  = wire (snd (YayayWebhookHandler (mkYaya "secret") TaskLast scenario_request
               (with_fault NoFault fresh_world))).
Proof.
  apply (success_response_independent_of_ingestion (mkYaya "secret")
           scenario_request scenario_event fresh_world).
  - discriminate.
  - reflexivity.
  - vm_compute. reflexivity.
  - vm_compute. reflexivity.
Defined.

(** ** C9: message or error, never both *)

(** C9. The webhook handler writes exactly one response to every request;
    it carries a status code and has exactly one of its message and its
    error populated. *)
Theorem YayayWebhookHandler_message_xor_error
  (y : yaya) (s : Sched) (r : Request) (w : World) :
  exists resp,
    wire (snd (YayayWebhookHandler y s r w)) = (wire w ++ [resp])%list
    /\ (StatusCode resp = StatusOK \/ StatusCode resp = StatusBadRequest)
    /\ xorb (populated (Message resp)) (populated (Error resp)) = true
    /\ (populated (Message resp) && populated (Error resp) = false).
Proof.
  destruct (string_dec (Header_Get r) EmptyString) as [H|H].
  { exists (rejection "signature is missing").
    rewrite handler_missing_signature by assumption.
    repeat split; try reflexivity. now right. }
  destruct (Decode (body r)) as [req|] eqn:D.
  2:{ exists (rejection "invalid data").
      rewrite handler_invalid_data by assumption.
      repeat split; try reflexivity. now right. }
  destruct (fst (validateTimestamp y (TimeStamp req) (5 * time.Minute) w)) eqn:V.
  2:{ exists (rejection "invalid timestamp").
      rewrite (handler_invalid_timestamp y s r w req) by assumption.
      repeat split; try reflexivity. now right. }
  destruct (fst (verifySignature y (Header_Get r) req w)) eqn:G.
  2:{ exists (rejection "invalid signature").
      rewrite (handler_invalid_signature y s r w req) by assumption.
      repeat split; try reflexivity. now right. }
  exists success.
  rewrite (handler_accepts y s r w req) by assumption.
  split; [apply (go_ingestion_effect y s req (add_logs auth_logs w))|].
  repeat split; try reflexivity. now left.
Qed.

(* ================================================================== *)
(** ** The store under sequences of ingestions *)

Lemma Ingest_table (y : yaya) (c : Call) (d : option Table) :
  table_of (Ingest y c d)
  = if succeeded c
    then sql.upsert (row_of (c_event c) (c_now c)) (table_of d)
    else table_of d.
Proof.
  unfold Ingest, succeeded. rewrite saveWebhookToDatabase_run. cbn.
  destruct (c_fault c); reflexivity.
Qed.

Lemma Ingest_all_snoc (y : yaya) (cs : list Call) (c : Call) (d : option Table) :
  Ingest_all y (cs ++ [c]) d = Ingest y c (Ingest_all y cs d).
Proof. unfold Ingest_all. now rewrite fold_left_app. Qed.

Section Upsert.

Variable new : Row.

Lemma upsert_In_ids (t : Table) (k : string) :
  In k (map id (sql.upsert new t)) <-> In k (map id t) \/ k = id new.
Proof.
  induction t as [|r t IH]; cbn.
  - intuition congruence.
  - destruct (String.eqb_spec (id r) (id new)) as [E|E]; cbn.
    + intuition congruence.
    + rewrite IH. tauto.
Qed.

Lemma upsert_NoDup (t : Table) :
  NoDup (map id t) -> NoDup (map id (sql.upsert new t)).
Proof.
  induction t as [|r t IH]; cbn; intros H.
  - repeat constructor. intros [].
  - inversion H as [|? ? Hnin Hnd]; subst.
    destruct (String.eqb_spec (id r) (id new)) as [E|E]; cbn.
    + constructor; assumption.
    + constructor; [|now apply IH].
      rewrite upsert_In_ids. intros [Hin|Heq]; [contradiction|congruence].
Qed.

Lemma select_upsert_other (t : Table) (k : string) :
  k <> id new ->
  sql.select_by_id k (sql.upsert new t) = sql.select_by_id k t.
Proof.
  intros Hk. unfold sql.select_by_id. induction t as [|r t IH]; cbn.
  - destruct (String.eqb_spec (id new) k); [congruence|reflexivity].
  - destruct (String.eqb_spec (id r) (id new)) as [E|E]; cbn.
    + destruct (String.eqb_spec (id r) k); [congruence|reflexivity].
    + now rewrite IH.
Qed.

Lemma select_upsert_absent (t : Table) :
  sql.select_by_id (id new) t = [] ->
  sql.select_by_id (id new) (sql.upsert new t) = [new].
Proof.
  unfold sql.select_by_id. induction t as [|r t IH]; cbn.
  - intros _. now rewrite String.eqb_refl.
  - destruct (String.eqb_spec (id r) (id new)) as [E|E]; [discriminate|].
    intros H. cbn. apply String.eqb_neq in E. rewrite E. now apply IH.
Qed.

Lemma select_upsert_present (t : Table) (old : Row) :
  sql.select_by_id (id new) t = [old] ->
  sql.select_by_id (id new) (sql.upsert new t) = [sql.do_update old new].
Proof.
  unfold sql.select_by_id. induction t as [|r t IH]; cbn; [discriminate|].
  destruct (String.eqb_spec (id r) (id new)) as [E|E].
  - intros H. injection H as -> Ht. cbn. rewrite E, String.eqb_refl.
    now rewrite Ht.
  - intros H. cbn. apply String.eqb_neq in E. rewrite E. now apply IH.
Qed.

End Upsert.

Lemma select_by_id_id (k : string) (t : Table) (r : Row) :
  In r (sql.select_by_id k t) -> id r = k.
Proof.
  unfold sql.select_by_id. rewrite filter_In. intros [_ H].
  now apply String.eqb_eq.
Qed.

Lemma select_by_id_In (k : string) (t : Table) :
  sql.select_by_id k t <> [] <-> In k (map id t).
Proof.
  unfold sql.select_by_id. induction t as [|r t IH]; cbn; [tauto|].
  destruct (String.eqb_spec (id r) k) as [E|E].
  - split; [now left|discriminate].
  - rewrite IH. intuition congruence.
Qed.

Lemma select_by_id_unique (k : string) (t : Table) :
  NoDup (map id t) -> (List.length (sql.select_by_id k t) <= 1)%nat.
Proof.
  induction t as [|r t IH]; intros H; [cbn; lia|].
  cbn in H. inversion H as [|? ? Hnin Hnd]; subst.
  unfold sql.select_by_id in *. cbn [filter].
  destruct (String.eqb_spec (id r) k) as [E|E]; [|now apply IH].
  subst k. cbn [List.length].
  destruct (filter (fun r0 => String.eqb (id r0) (id r)) t) as [|r' l] eqn:S;
    [cbn; lia|].
  exfalso. apply Hnin. apply (select_by_id_In (id r) t).
  unfold sql.select_by_id. rewrite S. discriminate.
Qed.

(** No sequence of ingestions, failed ones included, leaves two rows with
    one identifier. *)
Lemma Ingest_all_NoDup (y : yaya) (cs : list Call) :
  NoDup (ids (Ingest_all y cs None)).
Proof.
  induction cs as [|c cs IH] using rev_ind.
  - constructor.
  - rewrite Ingest_all_snoc. unfold ids in *. rewrite Ingest_table.
    destruct (succeeded c); [now apply upsert_NoDup|assumption].
Qed.

Lemma Ingest_keeps_ids (y : yaya) (c : Call) (d : option Table) (k : string) :
  In k (ids d) -> In k (ids (Ingest y c d)).
Proof.
  unfold ids. rewrite Ingest_table.
  destruct (succeeded c); [|tauto].
  rewrite upsert_In_ids. tauto.
Qed.

Lemma Ingest_all_keeps_ids (y : yaya) (cs : list Call) :
  forall d k, In k (ids d) -> In k (ids (Ingest_all y cs d)).
Proof.
  induction cs as [|c cs IH]; intros d k H; [assumption|].
  cbn. apply IH. now apply Ingest_keeps_ids.
Qed.

Lemma deliveries_snoc (k : string) (cs : list Call) (c : Call) :
  deliveries k (cs ++ [c])
  = (deliveries k cs
     ++ if succeeded c && String.eqb (ID (c_event c)) k then [c] else [])%list.
Proof. unfold deliveries. now rewrite filter_app. Qed.

(** What the store holds for an identifier after any sequence of calls:
    nothing before the first write, and afterwards one row with the fields
    of the latest write, the [created_at] of the first and the
    [updated_at] of the latest. *)
Lemma rows_of_history (y : yaya) (cs : list Call) (k : string) :
  rows_of k (Ingest_all y cs None) = history_rows k cs.
Proof.
  induction cs as [|c cs IH] using rev_ind; [reflexivity|].
  rewrite Ingest_all_snoc. unfold rows_of in *. rewrite Ingest_table.
  unfold history_rows in *. rewrite deliveries_snoc.
  destruct (succeeded c); cbn [andb].
  2:{ now rewrite app_nil_r. }
  destruct (String.eqb_spec (ID (c_event c)) k) as [E|E].
  2:{ rewrite app_nil_r, select_upsert_other; [assumption|]. cbn. congruence. }
  subst k.
  destruct (deliveries (ID (c_event c)) cs) as [|c1 rest] eqn:D.
  - apply (select_upsert_absent (row_of (c_event c) (c_now c))). exact IH.
  - etransitivity.
    { apply (select_upsert_present (row_of (c_event c) (c_now c))). exact IH. }
    cbn [app]. rewrite last_last. unfold stored_row, sql.do_update, row_of. cbn.
    f_equal. f_equal.
    apply (select_by_id_id (ID (c_event c)) (table_of (Ingest_all y cs None))
             (stored_row c1 (last rest c1))).
    rewrite IH. now left.
Qed.

(** ** C5: one row per identifier *)

(** C5. After any sequence of ingestions, whatever the store did at each,
    no two rows share an identifier; ingesting one event twice in a row
    leaves exactly one row for it; and an identifier that has a row keeps
    one through every later call. *)
Theorem store_one_row_per_id (y : yaya) (cs : list Call) :
  let d := Ingest_all y cs None in
  NoDup (ids d)
  /\ (forall k, (List.length (rows_of k d) <= 1)%nat)
  /\ (forall e now1 now2,
        List.length
          (rows_of (ID e)
             (Ingest y (mkCall e NoFault now2) (Ingest y (mkCall e NoFault now1) d)))
        = 1%nat)
  /\ (forall k c, In k (ids d) -> In k (ids (Ingest y c d)))
  /\ (forall k cs', In k (ids d) -> In k (ids (Ingest_all y cs' d))).
Proof.
  cbv zeta. repeat apply conj.
  - apply Ingest_all_NoDup.
  - intros k. apply select_by_id_unique, Ingest_all_NoDup.
  - intros e now1 now2.
    rewrite <- !Ingest_all_snoc, rows_of_history.
    unfold history_rows. rewrite deliveries_snoc.
    cbn [succeeded c_fault c_event andb]. rewrite String.eqb_refl.
    destruct (deliveries (ID e) (cs ++ [mkCall e NoFault now1])); reflexivity.
  - intros k c. apply Ingest_keeps_ids.
  - intros k cs'. apply Ingest_all_keeps_ids.
Qed.

(** ** C6: what one ingestion changes *)

(** C6. Ingesting an event into a store that has a row for its identifier
    replaces every column of that row but [id] and [created_at] by the
    values of the new payload and sets [updated_at] to the current
    instant; [created_at] stays the instant of the first successful write
    of that identifier.  Without such a row, a new one is added whose
    [created_at] (and [updated_at]) is the current instant.  Rows of other
    identifiers are left as they were. *)
Theorem saveWebhookToDatabase_upsert
  (y : yaya) (cs : list Call) (e : YayaWebhook) (now : Z) :
  let d := Ingest_all y cs None in
  let d' := Ingest y (mkCall e NoFault now) d in
  (forall old,
     rows_of (ID e) d = [old] ->
     rows_of (ID e) d'
     = [mkRow (ID e) (decimal.String_ (Amount e)) (Currency_ e) (CreatedAtTime e)
          (TimeStamp e) (Cause e) (FullName e) (AccountName e) (InvoiceURL e)
          (created_at old) now])
  /\ (forall c1 rest,
        deliveries (ID e) cs = c1 :: rest ->
        exists old, rows_of (ID e) d = [old] /\ created_at old = c_now c1)
  /\ (rows_of (ID e) d = [] -> rows_of (ID e) d' = [row_of e now])
  /\ (deliveries (ID e) cs = [] -> rows_of (ID e) d = [])
  /\ (forall k, k <> ID e -> rows_of k d' = rows_of k d).
Proof.
  cbv zeta. repeat apply conj.
  - intros old Hold. unfold rows_of in *. rewrite Ingest_table.
    cbn [succeeded c_fault c_event c_now].
    etransitivity.
    { apply (select_upsert_present (row_of e now)). exact Hold. }
    unfold sql.do_update, row_of. cbn. f_equal. f_equal.
    apply (select_by_id_id (ID e) (table_of (Ingest_all y cs None)) old).
    rewrite Hold. now left.
  - intros c1 rest D. rewrite rows_of_history. unfold history_rows. rewrite D.
    eexists. split; reflexivity.
  - intros Hnone. unfold rows_of in *. rewrite Ingest_table.
    cbn [succeeded c_fault c_event c_now].
    apply (select_upsert_absent (row_of e now)). exact Hnone.
  - intros D. rewrite rows_of_history. unfold history_rows. now rewrite D.
  - intros k Hk. unfold rows_of. rewrite Ingest_table.
    cbn [succeeded c_fault c_event c_now].
    apply select_upsert_other. cbn. exact Hk.
Qed.

Example redelivery_keeps_created_at :
  Ingest_all (mkYaya "secret")
    [mkCall scenario_event NoFault 1700000001000000000;
     mkCall scenario_event InsertFails 1700000030000000000;
     mkCall redelivered_event NoFault 1700000061000000000] None
  = Some [mkRow "abc123" "100" "ETB" 1700000000 1700000060 "Retry" "Abebe Kebede"
            "abebekebede1" "https://yayawallet.com/en/invoice/xxxx"
            1700000001000000000 1700000061000000000].
Proof. reflexivity. Qed.

(* ================================================================== *)
(** ** The text of a [Decimal] *)

(** *** Strings: lengths, prefixes and suffixes *)

Lemma length_append (a b : string) :
  String.length (a ++ b) = (String.length a + String.length b)%nat.
Proof. induction a as [|c a IH]; cbn; [reflexivity|now rewrite IH]. Qed.

Lemma append_assoc (a b c : string) : ((a ++ b) ++ c = a ++ (b ++ c))%string.
Proof. induction a as [|x a IH]; cbn; [reflexivity|now rewrite IH]. Qed.

Lemma take_app (a b : string) : GoString.take (String.length a) (a ++ b) = a.
Proof.
  induction a as [|c a IH]; cbn.
  - destruct b; reflexivity.
  - now rewrite IH.
Qed.

Lemma drop_app (a b : string) : GoString.drop (String.length a) (a ++ b) = b.
Proof. induction a as [|c a IH]; cbn; [reflexivity|exact IH]. Qed.

Lemma take_drop (n : nat) (s : string) :
  (GoString.take n s ++ GoString.drop n s)%string = s.
Proof.
  revert s. induction n as [|n IH]; intros [|c s]; cbn; try reflexivity.
  now rewrite IH.
Qed.

Lemma length_take (n : nat) (s : string) :
  (n <= String.length s)%nat -> String.length (GoString.take n s) = n.
Proof.
  revert s. induction n as [|n IH]; intros [|c s]; cbn; intros H;
    try reflexivity; try lia.
  rewrite IH; lia.
Qed.

Lemma length_drop (n : nat) (s : string) :
  String.length (GoString.drop n s) = (String.length s - n)%nat.
Proof.
  revert s. induction n as [|n IH]; intros [|c s]; cbn; try reflexivity.
  apply IH.
Qed.

Lemma all_chars_app (p : ascii -> bool) (a b : string) :
  all_chars p (a ++ b) = all_chars p a && all_chars p b.
Proof.
  induction a as [|c a IH]; cbn; [reflexivity|].
  now rewrite IH, andb_assoc.
Qed.

Lemma all_chars_weaken (p q : ascii -> bool) (s : string) :
  (forall c, p c = true -> q c = true) ->
  all_chars p s = true -> all_chars q s = true.
Proof.
  intros Hpq. induction s as [|c s IH]; cbn; [reflexivity|].
  rewrite !andb_true_iff. intros [Hc Hs]. split; [now apply Hpq|now apply IH].
Qed.

Lemma index_any_none (p : ascii -> bool) (s : string) :
  all_chars (fun c => negb (p c)) s = true -> decimal.index_any p s = None.
Proof.
  induction s as [|c s IH]; cbn; [reflexivity|].
  rewrite andb_true_iff, negb_true_iff. intros [-> Hs]. now rewrite IH.
Qed.

Lemma index_any_app (p : ascii -> bool) (a : string) (c : ascii) (b : string) :
  all_chars (fun c => negb (p c)) a = true -> p c = true ->
  decimal.index_any p (a ++ String c b) = Some (String.length a).
Proof.
  intros Ha Hc. induction a as [|x a IH]; cbn in *.
  - now rewrite Hc.
  - apply andb_true_iff in Ha as [Hx Ha]. apply negb_true_iff in Hx.
    now rewrite Hx, IH.
Qed.

(** *** Digits and their value *)

Lemma parse_digits_all (s : string) :
  forall a, (exists v, strconv.parse_digits s a = Some v)
            <-> all_chars strconv.is_digit s = true.
Proof.
  induction s as [|c s IH]; intros a; cbn.
  - split; [reflexivity|]. intros _. now exists a.
  - destruct (strconv.is_digit c); cbn.
    + apply IH.
    + split; [intros [v H]; discriminate|discriminate].
Qed.

Lemma digit_val_range (c : ascii) :
  strconv.is_digit c = true -> 0 <= strconv.digit_val c < 10.
Proof.
  unfold strconv.is_digit, strconv.digit_val.
  rewrite andb_true_iff, !Z.leb_le. lia.
Qed.

Lemma parse_digits_bound (s : string) :
  forall a v, strconv.parse_digits s a = Some v ->
  a * 10 ^ Z.of_nat (String.length s) <= v
  < (a + 1) * 10 ^ Z.of_nat (String.length s).
Proof.
  induction s as [|c s IH]; intros a v H.
  - cbn in *. injection H as <-. lia.
  - cbn [strconv.parse_digits] in H.
    destruct (strconv.is_digit c) eqn:Hc; [|discriminate].
    apply IH in H. apply digit_val_range in Hc.
    cbn [String.length]. rewrite Nat2Z.inj_succ, Z.pow_succ_r by lia.
    assert (0 < 10 ^ Z.of_nat (String.length s)) by (apply Z.pow_pos_nonneg; lia).
    nia.
Qed.

Lemma parse_digits_app (s t : string) :
  forall a, strconv.parse_digits (s ++ t) a
  = match strconv.parse_digits s a with
    | Some v => strconv.parse_digits t v
    | None => None
    end.
Proof.
  induction s as [|c s IH]; intros a; cbn; [reflexivity|].
  destruct (strconv.is_digit c); [apply IH|reflexivity].
Qed.

Lemma parse_digits_zeros (j : nat) (a : Z) :
  strconv.parse_digits (GoString.Repeat "0" j) a = Some (a * 10 ^ Z.of_nat j).
Proof.
  revert a. induction j as [|j IH]; intros a.
  - cbn. f_equal. lia.
  - cbn [GoString.Repeat append strconv.parse_digits].
    change (strconv.is_digit "0") with true. cbv iota.
    change (strconv.digit_val "0") with 0.
    rewrite IH, Nat2Z.inj_succ, Z.pow_succ_r by lia. f_equal. lia.
Qed.

Lemma length_Repeat (j : nat) : String.length (GoString.Repeat "0" j) = j.
Proof. induction j as [|j IH]; cbn; [reflexivity|now rewrite IH]. Qed.

Lemma all_digits_Repeat (j : nat) :
  all_chars strconv.is_digit (GoString.Repeat "0" j) = true.
Proof. induction j as [|j IH]; cbn; [reflexivity|exact IH]. Qed.

Lemma FormatUint_digits (n : Z) :
  0 <= n -> all_chars strconv.is_digit (strconv.FormatUint n) = true.
Proof.
  intros H. apply (parse_digits_all _ 0). exists n. now apply FormatUint_parse.
Qed.

(** *** Trailing zeros *)

Lemma trim_zeros_spec (s : string) :
  exists j, s = (decimal.trim_zeros s ++ GoString.Repeat "0" j)%string.
Proof.
  induction s as [|c s [j IH]].
  - now exists O.
  - cbn [decimal.trim_zeros].
    destruct (decimal.trim_zeros s) as [|c' r] eqn:T.
    + destruct (Ascii.eqb_spec c "0") as [->|Hc].
      * exists (S j). cbn in *. now rewrite <- IH.
      * exists j. cbn in *. now rewrite <- IH.
    + exists j. cbn in *. now rewrite <- IH.
Qed.

(** *** Reading fixed-point text *)

Lemma parse_signed_bound (s : string) (n : Z) :
  strconv.parse_signed s = Some n -> Z.abs n < 10 ^ Z.of_nat (String.length s).
Proof.
  destruct s as [|c r]; [discriminate|].
  unfold strconv.parse_signed.
  set (body := if (Ascii.eqb c "+" || Ascii.eqb c "-")%bool then r else String c r).
  assert (String.length body <= String.length (String c r))%nat as Hlen.
  { unfold body. destruct (Ascii.eqb c "+" || Ascii.eqb c "-")%bool; cbn; lia. }
  destruct body as [|c' r'] eqn:B; [discriminate|].
  destruct (strconv.parse_digits (String c' r') 0) as [m|] eqn:P; [|discriminate].
  intros H. injection H as <-.
  apply parse_digits_bound in P.
  assert (10 ^ Z.of_nat (String.length (String c' r'))
          <= 10 ^ Z.of_nat (String.length (String c r)))
    by (apply Z.pow_le_mono_r; lia).
  destruct (Ascii.eqb c "-"); lia.
Qed.

(** The two ways [NewFromString] reads the coefficient agree: up to 18
    bytes cannot leave the [int64] range. *)
Lemma dValue_agree (s : string) :
  (if Nat.leb (String.length s) 18
   then strconv.ParseInt s 64 else strconv.parse_signed s)
  = strconv.parse_signed s.
Proof.
  destruct (Nat.leb_spec (String.length s) 18) as [Hle|Hgt]; [|reflexivity].
  unfold strconv.ParseInt.
  destruct (strconv.parse_signed s) as [n|] eqn:P; [|reflexivity].
  apply parse_signed_bound in P.
  assert (10 ^ Z.of_nat (String.length s) <= 10 ^ 18)
    by (apply Z.pow_le_mono_r; lia).
  change (64 - 1) with 63.
  destruct (Z.leb_spec (- 2 ^ 63) n); destruct (Z.ltb_spec n (2 ^ 63));
    cbn [andb]; try reflexivity; lia.
Qed.

Lemma digit_not_E (c : ascii) :
  strconv.is_digit c = true -> negb (decimal.is_E c) = true.
Proof.
  intros H. unfold decimal.is_E.
  destruct (Ascii.eqb_spec c "E") as [->|_]; [discriminate H|].
  destruct (Ascii.eqb_spec c "e") as [->|_]; [discriminate H|reflexivity].
Qed.

Lemma digit_not_dot (c : ascii) :
  strconv.is_digit c = true -> negb (decimal.is_dot c) = true.
Proof.
  intros H. unfold decimal.is_dot.
  destruct (Ascii.eqb_spec c ".") as [->|_]; [discriminate H|reflexivity].
Qed.

Lemma digit_not_sign (c : ascii) :
  strconv.is_digit c = true -> Ascii.eqb c "+" = false /\ Ascii.eqb c "-" = false.
Proof.
  intros H. split.
  - destruct (Ascii.eqb_spec c "+") as [->|_]; [discriminate H|reflexivity].
  - destruct (Ascii.eqb_spec c "-") as [->|_]; [discriminate H|reflexivity].
Qed.

Lemma parse_signed_digits (neg : bool) (s : string) (N : Z) :
  s <> EmptyString ->
  strconv.parse_digits s 0 = Some N ->
  strconv.parse_signed (sign_text neg ++ s) = Some (if neg then - N else N).
Proof.
  intros Hne P. destruct s as [|c r]; [contradiction|].
  destruct neg; cbn [sign_text append].
  - change (strconv.parse_signed (String "-" (String c r)))
      with (match strconv.parse_digits (String c r) 0 with
            | Some n => Some (- n)
            | None => None
            end).
    now rewrite P.
  - assert (strconv.is_digit c = true) as Hc.
    { cbn in P. destruct (strconv.is_digit c); [reflexivity|discriminate]. }
    destruct (digit_not_sign c Hc) as [Hp Hm].
    unfold strconv.parse_signed. rewrite Hp, Hm. cbn [orb]. now rewrite P.
Qed.

Lemma drop_app_S (a : string) (c : ascii) (b : string) :
  GoString.drop (S (String.length a)) (a ++ String c b) = b.
Proof. induction a as [|x a IH]; cbn; [reflexivity|exact IH]. Qed.

Lemma sign_text_no (p : ascii -> bool) (neg : bool) :
  p "-"%char = false -> all_chars (fun c => negb (p c)) (sign_text neg) = true.
Proof. intros H. destruct neg; cbn; [now rewrite H|reflexivity]. Qed.

Lemma NewFromString_fixed (neg : bool) (ip fp : string) (N : Z) :
  all_chars strconv.is_digit ip = true ->
  ip <> EmptyString ->
  all_chars strconv.is_digit fp = true ->
  Z.of_nat (String.length fp) <= 2 ^ 31 ->
  strconv.parse_digits (ip ++ fp) 0 = Some N ->
  decimal.NewFromString (fixed_text neg ip fp)
  = Some (decimal.mkDecimal (if neg then - N else N)
            (- Z.of_nat (String.length fp))).
Proof.
  intros Hip Hne Hfp Hlen P.
  assert (all_chars (fun c => negb (decimal.is_E c)) (sign_text neg ++ ip) = true)
    as HE.
  { rewrite all_chars_app, sign_text_no by reflexivity.
    apply (all_chars_weaken _ _ _ digit_not_E Hip). }
  assert (all_chars (fun c => negb (decimal.is_dot c)) (sign_text neg ++ ip) = true)
    as HD.
  { rewrite all_chars_app, sign_text_no by reflexivity.
    apply (all_chars_weaken _ _ _ digit_not_dot Hip). }
  assert (ip ++ fp <> EmptyString)%string as Hne'.
  { destruct ip; [contradiction|discriminate]. }
  unfold decimal.NewFromString, fixed_text.
  destruct fp as [|f fr].
  - rewrite append_empty_r in *.
    rewrite (index_any_none _ _ HE).
    unfold decimal.find_point. rewrite (index_any_none _ _ HD).
    rewrite dValue_agree, (parse_signed_digits neg ip N Hne P).
    reflexivity.
  - set (fp := String f fr) in *.
    rewrite <- append_assoc.
    rewrite index_any_none.
    2:{ rewrite all_chars_app, HE. cbn [all_chars]. 
        change (negb (decimal.is_E ".")) with true. cbn [andb].
        apply (all_chars_weaken _ _ _ digit_not_E Hfp). }
    unfold decimal.find_point.
    rewrite (index_any_app _ _ _ _ HD) by reflexivity.
    rewrite drop_app_S, (index_any_none _ fp)
      by apply (all_chars_weaken _ _ _ digit_not_dot Hfp).
    rewrite take_app.
    assert (Nat.ltb (S (String.length (sign_text neg ++ ip)))
              (String.length ((sign_text neg ++ ip) ++ String "." fp)) = true) as L.
    { apply Nat.ltb_lt. rewrite (length_append _ (String "." fp)). cbn. lia. }
    rewrite L, dValue_agree, append_assoc, !drop_app_S.
    rewrite (parse_signed_digits neg (ip ++ fp) N Hne' P).
    unfold GoString.len, decimal.MinInt32, decimal.MaxInt32.
    destruct (Z.ltb_spec (0 + - Z.of_nat (String.length fp)) (- 2 ^ 31)); [lia|].
    destruct (Z.ltb_spec (2 ^ 31 - 1) (0 + - Z.of_nat (String.length fp))); [lia|].
    reflexivity.
Qed.

(** *** Writing and reading back *)

Lemma rescale_value (d : decimal.Decimal) :
  0 <= decimal.exp d ->
  decimal.value (decimal.rescale d 0) = decimal.value d * 10 ^ decimal.exp d.
Proof.
  intros H. unfold decimal.rescale.
  destruct (Z.eqb_spec (decimal.exp d) 0) as [E|E].
  - rewrite E. cbn. lia.
  - destruct (Z.ltb_spec (decimal.exp d) 0); [lia|].
    cbn [decimal.value]. f_equal. f_equal. lia.
Qed.

Lemma FormatInt_fixed (n : Z) :
  strconv.FormatInt n
  = fixed_text (n <? 0) (strconv.FormatUint (Z.abs n)) EmptyString.
Proof.
  unfold strconv.FormatInt, fixed_text.
  rewrite append_empty_r.
  destruct (Z.ltb_spec n 0); cbn [sign_text append].
  - now rewrite Z.abs_neq by lia.
  - now rewrite Z.abs_eq by lia.
Qed.

Lemma FormatUint_nonempty (n : Z) : 0 <= n -> strconv.FormatUint n <> EmptyString.
Proof.
  intros H. destruct (FormatUint_head n H) as (c & r & E & _).
  rewrite E. discriminate.
Qed.

(** The integer and the fractional digits [string_] cuts the coefficient
    into, before the trailing zeros are dropped. *)
Lemma split_digits (v : Z) (k : nat) :
  0 <= v ->
  let str := strconv.FormatUint v in
  let n := String.length str in
  let parts :=
    if Nat.ltb k n
    then (GoString.take (n - k) str, GoString.drop (n - k) str)
    else ("0"%string, (GoString.Repeat "0" (k - n) ++ str)%string) in
  all_chars strconv.is_digit (fst parts) = true
  /\ fst parts <> EmptyString
  /\ all_chars strconv.is_digit (snd parts) = true
  /\ String.length (snd parts) = k
  /\ strconv.parse_digits (fst parts ++ snd parts) 0 = Some v.
Proof.
  intros Hv str n parts.
  pose proof (FormatUint_digits v Hv) as Hd. fold str in Hd.
  pose proof (FormatUint_parse v Hv) as Hp. fold str in Hp.
  pose proof (FormatUint_nonempty v Hv) as Hne. fold str in Hne.
  unfold parts. destruct (Nat.ltb_spec k n) as [Hlt|Hge]; cbn [fst snd].
  - rewrite <- (take_drop (n - k) str), all_chars_app in Hd.
    apply andb_true_iff in Hd as [Ht Hdr].
    repeat apply conj; try assumption.
    + intros E. apply (f_equal String.length) in E.
      unfold n in *. rewrite length_take in E by lia.
      change (String.length EmptyString) with O in E. lia.
    + rewrite length_drop. unfold n in *. lia.
    + now rewrite take_drop.
  - repeat apply conj.
    + reflexivity.
    + discriminate.
    + now rewrite all_chars_app, all_digits_Repeat, Hd.
    + rewrite length_append, length_Repeat. unfold n in *. lia.
    + cbn [append strconv.parse_digits].
      change (strconv.is_digit "0") with true. cbv iota.
      change (0 * 10 + strconv.digit_val "0") with 0.
      rewrite parse_digits_app, parse_digits_zeros. cbn. exact Hp.
Qed.

Lemma String_fixed (d : decimal.Decimal) :
  exists neg ip fp N,
    decimal.String_ d = fixed_text neg ip fp
    /\ all_chars strconv.is_digit ip = true
    /\ ip <> EmptyString
    /\ all_chars strconv.is_digit fp = true
    /\ Z.of_nat (String.length fp) <= Z.max 0 (- decimal.exp d)
    /\ strconv.parse_digits (ip ++ fp) 0 = Some N
    /\ same_number d
         (decimal.mkDecimal (if neg then - N else N)
            (- Z.of_nat (String.length fp))).
Proof.
  destruct d as [v e]. unfold decimal.String_, decimal.string_.
  cbn [decimal.exp decimal.value].
  destruct (Z.leb_spec 0 e) as [He|He].
  - rewrite rescale_value by assumption. cbn [decimal.exp decimal.value].
    exists (v * 10 ^ e <? 0), (strconv.FormatUint (Z.abs (v * 10 ^ e))),
      EmptyString, (Z.abs (v * 10 ^ e)).
    repeat apply conj.
    + apply FormatInt_fixed.
    + apply FormatUint_digits, Z.abs_nonneg.
    + apply FormatUint_nonempty, Z.abs_nonneg.
    + reflexivity.
    + cbn. lia.
    + rewrite append_empty_r. apply FormatUint_parse, Z.abs_nonneg.
    + unfold same_number. cbn [decimal.exp decimal.value String.length].
      change (- Z.of_nat 0) with 0. rewrite Z.min_r by lia.
      rewrite Z.sub_0_r, Z.pow_0_r.
      destruct (Z.ltb_spec (v * 10 ^ e) 0); lia.
  - set (k := Z.to_nat (- e)).
    destruct (split_digits (Z.abs v) k (Z.abs_nonneg v))
      as (Hip & Hne & Hfr & Hlen & Hp).
    cbv zeta in *.
    set (parts := if Nat.ltb k (String.length (strconv.FormatUint (Z.abs v)))
                  then _ else _) in *.
    destruct parts as [ip frac]. cbn [fst snd] in *.
    destruct (trim_zeros_spec frac) as [j Hj].
    set (fp := decimal.trim_zeros frac) in *.
    assert (String.length frac = (String.length fp + j)%nat) as Hl
      by (rewrite Hj at 1; now rewrite length_append, length_Repeat).
    rewrite Hj, all_chars_app in Hfr. apply andb_true_iff in Hfr as [Hfp _].
    rewrite Hj, <- append_assoc, parse_digits_app in Hp.
    destruct (strconv.parse_digits (ip ++ fp) 0) as [N|] eqn:PN; [|discriminate].
    rewrite parse_digits_zeros in Hp. injection Hp as Hp.
    exists (v <? 0), ip, fp, N.
    repeat apply conj; try assumption.
    + unfold fixed_text. destruct fp as [|f fr].
      * rewrite append_empty_r. destruct (v <? 0); reflexivity.
      * destruct (v <? 0); reflexivity.
    + lia.
    + unfold same_number. cbn [decimal.exp decimal.value].
      rewrite Z.min_l by lia.
      replace (e - e) with 0 by lia.
      replace (- Z.of_nat (String.length fp) - e) with (Z.of_nat j) by lia.
      rewrite Z.pow_0_r.
      destruct (Z.ltb_spec v 0); lia.
Qed.

(** Reading back what [String] wrote gives the same number: the text
    loses nothing of the decimal. *)
Lemma NewFromString_String (d : decimal.Decimal) :
  decimal.MinInt32 <= decimal.exp d ->
  exists d',
    decimal.NewFromString (decimal.String_ d) = Some d' /\ same_number d d'.
Proof.
  intros He.
  destruct (String_fixed d) as (neg & ip & fp & N & -> & Hip & Hne & Hfp & Hl & P & S).
  eexists. split; [|exact S].
  apply NewFromString_fixed; try assumption.
  unfold decimal.MinInt32 in He. lia.
Qed.

(** The text of an integer is read and written back unchanged. *)
Lemma String_NewFromString_integer (n : Z) :
  decimal.NewFromString (strconv.FormatInt n) = Some (decimal.mkDecimal n 0)
  /\ decimal.String_ (decimal.mkDecimal n 0) = strconv.FormatInt n.
Proof.
  split; [|reflexivity].
  rewrite FormatInt_fixed.
  rewrite (NewFromString_fixed _ _ EmptyString (Z.abs n)).
  - cbn [String.length]. f_equal. f_equal.
    destruct (Z.ltb_spec n 0); lia.
  - apply FormatUint_digits, Z.abs_nonneg.
  - apply FormatUint_nonempty, Z.abs_nonneg.
  - reflexivity.
  - cbn. lia.
  - rewrite append_empty_r. apply FormatUint_parse, Z.abs_nonneg.
Qed.

(** *** Canonical digits *)

Lemma digit_val_inj (c c' : ascii) :
  strconv.digit_val c = strconv.digit_val c' -> c = c'.
Proof.
  unfold strconv.digit_val, GoString.byte_of. intros H.
  assert (N_of_ascii c = N_of_ascii c') as E by lia.
  rewrite <- (ascii_N_embedding c), <- (ascii_N_embedding c'). now rewrite E.
Qed.

Lemma parse_digits_same_length (s : string) :
  forall s' a v,
    String.length s = String.length s' ->
    strconv.parse_digits s a = Some v ->
    strconv.parse_digits s' a = Some v ->
    s = s'.
Proof.
  induction s as [|c s IH]; intros [|c' s'] a v Hlen P P'; try discriminate.
  - reflexivity.
  - cbn [String.length] in Hlen. injection Hlen as Hlen.
    cbn [strconv.parse_digits] in P, P'.
    destruct (strconv.is_digit c) eqn:Hc; [|discriminate].
    destruct (strconv.is_digit c') eqn:Hc'; [|discriminate].
    pose proof (parse_digits_bound _ _ _ P) as B.
    pose proof (parse_digits_bound _ _ _ P') as B'.
    rewrite <- Hlen in B'.
    apply digit_val_range in Hc, Hc'.
    assert (0 < 10 ^ Z.of_nat (String.length s)) as Hpos
      by (apply Z.pow_pos_nonneg; lia).
    assert (strconv.digit_val c = strconv.digit_val c') as Ed by nia.
    apply digit_val_inj in Ed. subst c'. f_equal.
    apply (IH s' _ v Hlen P P').
Qed.

Lemma canon_digits_spec (s : string) :
  canon_digits s = true ->
  all_chars strconv.is_digit s = true
  /\ exists c r, s = String c r /\ (c = "0"%char -> r = EmptyString).
Proof.
  unfold canon_digits. rewrite andb_true_iff. intros [Hd Hh].
  split; [exact Hd|].
  destruct s as [|c r]; [discriminate|].
  exists c, r. split; [reflexivity|]. intros ->.
  cbn in Hh. now apply String.eqb_eq.
Qed.

Lemma canon_digits_value (c : ascii) (r : string) (v : Z) :
  all_chars strconv.is_digit (String c r) = true ->
  c <> "0"%char ->
  strconv.parse_digits (String c r) 0 = Some v ->
  10 ^ Z.of_nat (String.length r) <= v < 10 ^ Z.of_nat (S (String.length r)).
Proof.
  intros Hd Hc P. cbn [all_chars] in Hd. apply andb_true_iff in Hd as [Hdc _].
  cbn [strconv.parse_digits] in P. rewrite Hdc in P.
  apply parse_digits_bound in P.
  pose proof (digit_val_range c Hdc) as R.
  assert (strconv.digit_val c <> 0) as Hnz.
  { intros E. apply Hc. apply digit_val_inj. rewrite E. reflexivity. }
  rewrite Nat2Z.inj_succ, Z.pow_succ_r by lia.
  assert (0 < 10 ^ Z.of_nat (String.length r)) by (apply Z.pow_pos_nonneg; lia).
  nia.
Qed.

Lemma canon_digits_inj (s s' : string) (v : Z) :
  canon_digits s = true -> canon_digits s' = true ->
  strconv.parse_digits s 0 = Some v ->
  strconv.parse_digits s' 0 = Some v ->
  s = s'.
Proof.
  intros C C' P P'.
  destruct (canon_digits_spec s C) as (Hd & c & r & -> & Hz).
  destruct (canon_digits_spec s' C') as (Hd' & c' & r' & -> & Hz').
  apply (parse_digits_same_length _ _ 0 v); try assumption.
  destruct (ascii_dec c "0") as [E|E]; destruct (ascii_dec c' "0") as [E'|E'].
  - now rewrite (Hz E), (Hz' E').
  - exfalso. rewrite (Hz E), E in P. cbn in P. injection P as <-.
    pose proof (canon_digits_value c' r' 0 Hd' E' P') as B.
    assert (0 < 10 ^ Z.of_nat (String.length r')) by (apply Z.pow_pos_nonneg; lia).
    lia.
  - exfalso. rewrite (Hz' E'), E' in P'. cbn in P'. injection P' as <-.
    pose proof (canon_digits_value c r 0 Hd E P) as B.
    assert (0 < 10 ^ Z.of_nat (String.length r)) by (apply Z.pow_pos_nonneg; lia).
    lia.
  - pose proof (canon_digits_value c r v Hd E P) as B.
    pose proof (canon_digits_value c' r' v Hd' E' P') as B'.
    cbn [String.length]. f_equal.
    destruct (Nat.lt_trichotomy (String.length r) (String.length r'))
      as [L|[L|L]]; [|exact L|]; exfalso.
    + assert (10 ^ Z.of_nat (S (String.length r)) <= 10 ^ Z.of_nat (String.length r'))
        by (apply Z.pow_le_mono_r; lia). lia.
    + assert (10 ^ Z.of_nat (S (String.length r')) <= 10 ^ Z.of_nat (String.length r))
        by (apply Z.pow_le_mono_r; lia). lia.
Qed.

Lemma digit_char_nonzero (d : Z) :
  1 <= d < 10 -> strconv.digit_char d <> "0"%char.
Proof.
  intros H E. destruct (digit_char_ok d) as [_ Hv]; [lia|].
  rewrite E in Hv. cbn in Hv. lia.
Qed.

Lemma format_loop_head_nonzero (f : nat) :
  forall n acc, 1 <= n < 2 ^ Z.of_nat (S f) ->
  exists c r, strconv.format_loop (S f) n acc = String c r /\ c <> "0"%char.
Proof.
  induction f as [|f IH]; intros n acc Hn.
  - change (2 ^ Z.of_nat 1) with 2 in Hn. rewrite format_loop_S.
    destruct (Z.ltb_spec n 10); [|lia].
    eexists; eexists; split; [reflexivity|].
    apply digit_char_nonzero. rewrite Z.mod_small; lia.
  - rewrite format_loop_S.
    destruct (Z.ltb_spec n 10) as [Hlt|Hge].
    + eexists; eexists; split; [reflexivity|].
      apply digit_char_nonzero. rewrite Z.mod_small; lia.
    + apply IH.
      rewrite Nat2Z.inj_succ, Z.pow_succ_r in Hn by lia.
      split.
      * apply Z.div_le_lower_bound; lia.
      * apply Z.div_lt_upper_bound; lia.
Qed.

Lemma FormatUint_canon (n : Z) :
  0 <= n -> canon_digits (strconv.FormatUint n) = true.
Proof.
  intros Hn. unfold canon_digits. rewrite (FormatUint_digits n Hn). cbn [andb].
  destruct (Z.eq_dec n 0) as [->|Hnz]; [reflexivity|].
  destruct (format_loop_head_nonzero (Z.to_nat (Z.log2 n)) n EmptyString)
    as (c & r & E & Hc).
  { split; [lia|].
    rewrite Nat2Z.inj_succ, Z2Nat.id by apply Z.log2_nonneg.
    apply Z.log2_spec. lia. }
  unfold strconv.FormatUint. rewrite E.
  destruct (Ascii.eqb_spec c "0"); [contradiction|reflexivity].
Qed.

(** Writing the value of canonical digits gives the digits back. *)
Lemma FormatUint_of_canon (s : string) (v : Z) :
  canon_digits s = true ->
  strconv.parse_digits s 0 = Some v ->
  strconv.FormatUint v = s.
Proof.
  intros C P.
  assert (0 <= v) as Hv by (apply parse_digits_bound in P; lia).
  apply (canon_digits_inj _ _ v); try assumption.
  - now apply FormatUint_canon.
  - now apply FormatUint_parse.
Qed.

Lemma canon_digits_take (n : nat) (s : string) :
  canon_digits s = true -> (0 < n)%nat ->
  canon_digits (GoString.take n s) = true.
Proof.
  intros C Hn. destruct (canon_digits_spec s C) as (Hd & c & r & -> & Hz).
  destruct n as [|n]; [lia|]. cbn [GoString.take].
  unfold canon_digits. apply andb_true_iff. split.
  - rewrite <- (take_drop (S n) (String c r)), all_chars_app in Hd.
    apply andb_true_iff in Hd as [Ht _]. exact Ht.
  - destruct (Ascii.eqb_spec c "0") as [E|E]; [|reflexivity].
    rewrite (Hz E). cbn. destruct n; reflexivity.
Qed.

(** *** Leading and trailing zeros *)

Lemma length_lstrip (s : string) : (String.length (lstrip s) <= String.length s)%nat.
Proof.
  induction s as [|c s IH]; cbn; [lia|].
  destruct (Ascii.eqb c "0"); cbn; lia.
Qed.

Lemma lstrip_zeros (s : string) :
  s = (GoString.Repeat "0" (String.length s - String.length (lstrip s))
       ++ lstrip s)%string.
Proof.
  induction s as [|c s IH]; [reflexivity|].
  cbn [lstrip]. destruct (Ascii.eqb_spec c "0") as [->|E].
  - pose proof (length_lstrip s).
    replace (String.length (String "0" s) - String.length (lstrip s))%nat
      with (S (String.length s - String.length (lstrip s)))
      by (cbn [String.length]; lia).
    cbn [GoString.Repeat append]. now rewrite <- IH.
  - rewrite Nat.sub_diag. reflexivity.
Qed.

Lemma parse_digits_lstrip (s : string) :
  strconv.parse_digits s 0 = strconv.parse_digits (lstrip s) 0.
Proof.
  induction s as [|c s IH]; [reflexivity|].
  cbn [lstrip]. destruct (Ascii.eqb_spec c "0") as [->|E]; [|reflexivity].
  rewrite <- IH. reflexivity.
Qed.

Lemma lstrip_canon (s : string) :
  all_chars strconv.is_digit s = true ->
  lstrip s <> EmptyString ->
  canon_digits (lstrip s) = true.
Proof.
  induction s as [|c s IH]; intros Hd Hne; [contradiction|].
  cbn [lstrip] in *. destruct (Ascii.eqb_spec c "0") as [->|E].
  - cbn [all_chars] in Hd. apply andb_true_iff in Hd as [_ Hd]. now apply IH.
  - unfold canon_digits. rewrite Hd.
    destruct (Ascii.eqb_spec c "0"); [contradiction|reflexivity].
Qed.

Lemma trim_zeros_idempotent (s : string) :
  decimal.trim_zeros (decimal.trim_zeros s) = decimal.trim_zeros s.
Proof.
  induction s as [|c s IH]; [reflexivity|].
  cbn [decimal.trim_zeros].
  destruct (decimal.trim_zeros s) as [|c' r'] eqn:T.
  - destruct (Ascii.eqb c "0") eqn:E; [reflexivity|].
    cbn [decimal.trim_zeros]. now rewrite E.
  - change (decimal.trim_zeros (String c (String c' r')))
      with (match decimal.trim_zeros (String c' r') with
            | EmptyString =>
                if Ascii.eqb c "0" then EmptyString else String c EmptyString
            | String a b => String c (String a b)
            end).
    now rewrite IH.
Qed.

Lemma trimmed_has_digit (s : string) :
  decimal.trim_zeros s = s -> s <> EmptyString -> lstrip s <> EmptyString.
Proof.
  induction s as [|c s IH]; intros T Hne; [contradiction|].
  cbn [lstrip]. destruct (Ascii.eqb_spec c "0") as [->|E]; [|discriminate].
  cbn [decimal.trim_zeros] in T.
  destruct (decimal.trim_zeros s) as [|c' r'] eqn:Ts.
  - cbn in T. discriminate.
  - injection T as T. apply IH; [exact T|]. rewrite <- T. discriminate.
Qed.

(** *** The text [String] writes is canonical, and canonical text is kept *)

Lemma fixed_text_assemble (neg : bool) (ip fp : string) :
  (let number :=
     match fp with
     | EmptyString => ip
     | _ => (ip ++ "." ++ fp)%string
     end in
   if neg then String "-" number else number)
  = fixed_text neg ip fp.
Proof.
  unfold fixed_text. destruct fp as [|f fr].
  - rewrite append_empty_r. destruct neg; reflexivity.
  - destruct neg; reflexivity.
Qed.

(** [string_] below the point, with the two parts named. *)
Lemma string_neg_exp (d : decimal.Decimal) :
  decimal.exp d < 0 ->
  decimal.String_ d
  = let str := strconv.FormatUint (Z.abs (decimal.value d)) in
    let k := Z.to_nat (- decimal.exp d) in
    let n := String.length str in
    let parts :=
      if Nat.ltb k n
      then (GoString.take (n - k) str, GoString.drop (n - k) str)
      else ("0"%string, (GoString.Repeat "0" (k - n) ++ str)%string) in
    fixed_text (decimal.value d <? 0) (fst parts) (decimal.trim_zeros (snd parts)).
Proof.
  intros He. unfold decimal.String_, decimal.string_.
  destruct (Z.leb_spec 0 (decimal.exp d)) as [?|_]; [lia|].
  cbv zeta.
  destruct (Nat.ltb (Z.to_nat (- decimal.exp d))
              (String.length (strconv.FormatUint (Z.abs (decimal.value d)))));
    cbn [fst snd]; apply fixed_text_assemble.
Qed.

Lemma String_of_canonical (neg : bool) (ip fp : string) (N : Z) :
  canon_digits ip = true ->
  all_chars strconv.is_digit fp = true ->
  decimal.trim_zeros fp = fp ->
  strconv.parse_digits (ip ++ fp) 0 = Some N ->
  (neg = true -> 0 < N) ->
  decimal.String_
    (decimal.mkDecimal (if neg then - N else N) (- Z.of_nat (String.length fp)))
  = fixed_text neg ip fp.
Proof.
  intros C Hfp T P Hneg.
  assert (0 <= N) as HN by (apply parse_digits_bound in P; lia).
  set (sN := if neg then - N else N).
  assert ((sN <? 0) = neg) as Hs.
  { unfold sN. destruct neg.
    - apply Z.ltb_lt. specialize (Hneg eq_refl). lia.
    - apply Z.ltb_ge. lia. }
  assert (Z.abs sN = N) as Ha by (unfold sN; destruct neg; lia).
  destruct (canon_digits_spec ip C) as (Hip & c & r & Eip & Hz).
  destruct fp as [|f fr].
  - rewrite append_empty_r in P.
    unfold decimal.String_, decimal.string_. cbn [decimal.exp String.length].
    change (- Z.of_nat 0) with 0. change (0 <=? 0) with true. cbv iota.
    unfold decimal.rescale. cbn [decimal.exp decimal.value].
    change (0 =? 0) with true. cbv iota. cbn [decimal.value].
    rewrite FormatInt_fixed, Hs, Ha.
    now rewrite (FormatUint_of_canon ip N C P).
  - assert (0 < String.length (String f fr))%nat as Hfl by (cbn; lia).
    assert (String f fr <> EmptyString) as Hfne by discriminate.
    remember (String f fr) as fp eqn:Efp. clear Efp.
    rewrite string_neg_exp by (cbn [decimal.exp]; lia).
    cbn [decimal.exp decimal.value]. rewrite Hs, Ha.
    rewrite Z.opp_involutive, Nat2Z.id. cbv zeta.
    assert ((if Nat.ltb (String.length fp) (String.length (strconv.FormatUint N))
             then (GoString.take (String.length (strconv.FormatUint N)
                                  - String.length fp) (strconv.FormatUint N),
                   GoString.drop (String.length (strconv.FormatUint N)
                                  - String.length fp) (strconv.FormatUint N))
             else ("0"%string,
                   (GoString.Repeat "0" (String.length fp
                                         - String.length (strconv.FormatUint N))
                    ++ strconv.FormatUint N)%string))
            = (ip, fp)) as Hparts.
    { destruct (ascii_dec c "0") as [E|E].
      - assert (ip = "0"%string) as E0 by (rewrite Eip, E, (Hz E); reflexivity).
        rewrite E0 in *.
        assert (strconv.parse_digits fp 0 = Some N) as Pf by exact P.
        assert (lstrip fp <> EmptyString) as Hl
          by (apply trimmed_has_digit; [exact T|exact Hfne]).
        assert (strconv.FormatUint N = lstrip fp) as EF.
        { apply FormatUint_of_canon; [now apply lstrip_canon|].
          now rewrite <- parse_digits_lstrip. }
        rewrite EF. pose proof (length_lstrip fp) as Hlen.
        destruct (Nat.ltb_spec (String.length fp) (String.length (lstrip fp)));
          [lia|].
        now rewrite <- lstrip_zeros.
      - assert (canon_digits (ip ++ fp) = true) as Cf.
        { unfold canon_digits. rewrite all_chars_app, Hip, Hfp. cbn [andb].
          rewrite Eip. cbn [append].
          destruct (Ascii.eqb_spec c "0"); [contradiction|reflexivity]. }
        rewrite (FormatUint_of_canon _ N Cf P), length_append.
        assert (0 < String.length ip)%nat by (rewrite Eip; cbn; lia).
        destruct (Nat.ltb_spec (String.length fp)
                    (String.length ip + String.length fp)); [|lia].
        replace (String.length ip + String.length fp - String.length fp)%nat
          with (String.length ip) by lia.
        now rewrite take_app, drop_app. }
    rewrite Hparts. cbn [fst snd]. now rewrite T.
Qed.

(** What canonical text is read as, and that it is written back as it
    was. *)
Lemma canonical_text_kept (t : string) :
  canonical_text t ->
  exists d, decimal.NewFromString t = Some d /\ decimal.String_ d = t.
Proof.
  intros (neg & ip & fp & N & -> & C & Hfp & T & Hlen & P & Hneg).
  destruct (canon_digits_spec ip C) as (Hip & c & r & Eip & _).
  eexists. split.
  - apply NewFromString_fixed; try eassumption.
    rewrite Eip. discriminate.
  - now apply String_of_canonical.
Qed.

Lemma String_is_canonical (d : decimal.Decimal) :
  decimal.MinInt32 <= decimal.exp d -> canonical_text (decimal.String_ d).
Proof.
  intros Hmin. destruct d as [v e]. cbn [decimal.exp] in Hmin.
  destruct (Z.leb_spec 0 e) as [He|He].
  - unfold decimal.String_, decimal.string_. cbn [decimal.exp].
    destruct (Z.leb_spec 0 e) as [_|?]; [|lia].
    rewrite rescale_value by assumption. cbn [decimal.exp decimal.value].
    rewrite FormatInt_fixed.
    exists (v * 10 ^ e <? 0), (strconv.FormatUint (Z.abs (v * 10 ^ e))),
      EmptyString, (Z.abs (v * 10 ^ e)).
    repeat apply conj; try reflexivity.
    + apply FormatUint_canon, Z.abs_nonneg.
    + cbn. lia.
    + rewrite append_empty_r. apply FormatUint_parse, Z.abs_nonneg.
    + intros H. apply Z.ltb_lt in H. lia.
  - rewrite string_neg_exp by assumption. cbn [decimal.exp decimal.value]. cbv zeta.
    set (k := Z.to_nat (- e)).
    pose proof (FormatUint_canon (Z.abs v) (Z.abs_nonneg v)) as Cstr.
    destruct (split_digits (Z.abs v) k (Z.abs_nonneg v))
      as (Hip & Hne & Hfr & Hlen & Hp).
    cbv zeta in *.
    assert (canon_digits
              (fst (if Nat.ltb k (String.length (strconv.FormatUint (Z.abs v)))
                    then (GoString.take
                            (String.length (strconv.FormatUint (Z.abs v)) - k)
                            (strconv.FormatUint (Z.abs v)),
                          GoString.drop
                            (String.length (strconv.FormatUint (Z.abs v)) - k)
                            (strconv.FormatUint (Z.abs v)))
                    else ("0"%string,
                          (GoString.Repeat "0"
                             (k - String.length (strconv.FormatUint (Z.abs v)))
                           ++ strconv.FormatUint (Z.abs v))%string))) = true) as Cip.
    { destruct (Nat.ltb_spec k (String.length (strconv.FormatUint (Z.abs v))));
        cbn [fst]; [|reflexivity].
      apply canon_digits_take; [exact Cstr|lia]. }
    set (parts := if Nat.ltb k (String.length (strconv.FormatUint (Z.abs v)))
                  then _ else _) in *.
    destruct parts as [ip frac]. cbn [fst snd] in *.
    destruct (trim_zeros_spec frac) as [j Hj].
    set (fp := decimal.trim_zeros frac) in *.
    assert (String.length frac = (String.length fp + j)%nat) as Hl
      by (rewrite Hj at 1; now rewrite length_append, length_Repeat).
    rewrite Hj, all_chars_app in Hfr. apply andb_true_iff in Hfr as [Hfp _].
    rewrite Hj, <- append_assoc, parse_digits_app in Hp.
    destruct (strconv.parse_digits (ip ++ fp) 0) as [N|] eqn:PN; [|discriminate].
    rewrite parse_digits_zeros in Hp. injection Hp as Hp.
    exists (v <? 0), ip, fp, N.
    repeat apply conj; try assumption; try reflexivity.
    + apply trim_zeros_idempotent.
    + unfold decimal.MinInt32 in Hmin. lia.
    + intros H. apply Z.ltb_lt in H.
      assert (0 <= N) by (apply parse_digits_bound in PN; lia).
      assert (0 < 10 ^ Z.of_nat j) by (apply Z.pow_pos_nonneg; lia).
      nia.
Qed.

(** ** C7: the text of the amount *)

Lemma NewFromString_exp_range (t : string) (d : decimal.Decimal) :
  decimal.NewFromString t = Some d ->
  decimal.MinInt32 <= decimal.exp d <= decimal.MaxInt32.
Proof.
  unfold decimal.NewFromString.
  repeat match goal with
         | |- context [match ?x with _ => _ end] => destruct x eqn:?
         end; try discriminate;
    intros H; injection H as <-; cbn [decimal.exp];
    match goal with
    | E : (_ || _)%bool = false |- _ =>
        apply orb_false_iff in E as [E1 E2];
        apply Z.ltb_ge in E1; apply Z.ltb_ge in E2; lia
    end.
Qed.

Lemma Decode_amount (o : JSONObject) (req : YayaWebhook) :
  Decode (Object o) = Some req ->
  decimal.UnmarshalJSON (j_amount o) = Some (Amount req)
  /\ decimal.MinInt32 <= decimal.exp (Amount req).
Proof.
  unfold Decode.
  destruct (in_int64 (j_created_at_time o) && in_int64 (j_timestamp o));
    [|discriminate].
  destruct (decimal.UnmarshalJSON (j_amount o)) as [d|] eqn:U; [|discriminate].
  intros H. injection H as <-. cbn [Amount]. split; [reflexivity|].
  unfold decimal.UnmarshalJSON in U.
  destruct (String.eqb (j_amount o) "null").
  - injection U as <-. discriminate.
  - now apply NewFromString_exp_range in U.
Qed.

Lemma UnmarshalJSON_integer (n : Z) :
  decimal.UnmarshalJSON (strconv.FormatInt n) = Some (decimal.mkDecimal n 0).
Proof.
  assert (exists c r, strconv.FormatInt n = String c r
                      /\ Ascii.eqb c "n" = false
                      /\ Ascii.eqb c decimal.dquote = false) as (c & r & E & Hn & Hq).
  { unfold strconv.FormatInt. destruct (n <? 0).
    - eexists; eexists; split; [reflexivity|split; reflexivity].
    - destruct (Z.le_gt_cases 0 n) as [Hn|Hn].
      + destruct (FormatUint_head n Hn) as (c & r & E & Hc).
        exists c, r. split; [assumption|].
        split.
        * destruct (Ascii.eqb_spec c "n") as [->|]; [discriminate Hc|reflexivity].
        * destruct (Ascii.eqb_spec c decimal.dquote) as [->|];
            [discriminate Hc|reflexivity].
      + unfold strconv.FormatUint. rewrite Z.log2_nonpos by lia.
        rewrite format_loop_S.
        destruct (Z.ltb_spec n 10); [|lia].
        assert (0 <= n mod 10 < 10) as Hm by (apply Z.mod_pos_bound; lia).
        destruct (digit_char_ok _ Hm) as [Hd _].
        eexists; eexists; split; [reflexivity|].
        split.
        * destruct (Ascii.eqb_spec (strconv.digit_char (n mod 10)) "n") as [E|];
            [rewrite E in Hd; discriminate Hd|reflexivity].
        * destruct (Ascii.eqb_spec (strconv.digit_char (n mod 10)) decimal.dquote)
            as [E|]; [rewrite E in Hd; discriminate Hd|reflexivity]. }
  unfold decimal.UnmarshalJSON, decimal.unquoteIfQuoted.
  pose proof (proj1 (String_NewFromString_integer n)) as R.
  rewrite E in *. cbn [String.eqb String.get]. rewrite Hn, Hq.
  cbn [andb].
  match goal with
  | |- context [match ?g with Some _ => false | None => false end] =>
      destruct g
  end; rewrite andb_false_r; exact R.
Qed.

(** A body whose amount is written [100.50] decodes; the text that is
    signed and the text that is stored are both [100.5], not the text
    received. *)
Lemma amount_text_not_preserved :
  j_amount trailing_zero_object = "100.50"%string
  /\ Decode (Object trailing_zero_object) = Some trailing_zero_event
  /\ signedPayload trailing_zero_event
     = "abc123100.5ETB17000000001700000000TestingAbebe Kebedeabebekebede1https://yayawallet.com/en/invoice/xxxx"%string
  /\ map amount
       (table_of (Ingest (mkYaya "secret")
                    (mkCall trailing_zero_event NoFault 1700000001000000000) None))
     = ["100.5"%string]
  /\ decimal.String_ (Amount trailing_zero_event) <> j_amount trailing_zero_object.
Proof.
  repeat apply conj; try (vm_compute; reflexivity). discriminate.
Qed.

(** Texts that are kept, and texts that are not. *)
Example canonical_texts_kept :
  map (fun t => option_map decimal.String_ (decimal.NewFromString t))
    ["100"; "0"; "100.5"; "19.99"; "0.25"; "-0.5"; "-100.25"]%string
  = map Some ["100"; "0"; "100.5"; "19.99"; "0.25"; "-0.5"; "-100.25"]%string.
Proof. vm_compute. reflexivity. Qed.

Example other_texts_rewritten :
  map (fun t => option_map decimal.String_ (decimal.NewFromString t))
    ["100.50"; "-0"; "1.5e3"; "+7"; "007"; ".5"; "2."]%string
  = map Some ["100.5"; "0"; "1500"; "7"; "7"; "0.5"; "2"]%string.
Proof. vm_compute. reflexivity. Qed.

Example canonical_text_19_99 : canonical_text "19.99".
Proof.
  exists false, "19"%string, "99"%string, 1999.
  repeat split; try reflexivity; discriminate.
Qed.

Example minus_zero_not_canonical : ~ canonical_text "-0".
Proof.
  intros H. destruct (canonical_text_kept _ H) as (d & Hn & Hs).
  vm_compute in Hn. injection Hn as <-. vm_compute in Hs. discriminate.
Qed.

(** C7, as the code has it. The amount text that is signed and the one
    written to the [amount] column are the same string, [Amount.String()]:
    the fixed-point text of the decimal decoded from the body.  No
    floating point is involved and nothing is rounded: reading that text
    back gives the same number.  That string is the received text (the
    JSON value, without the quotes when it is a JSON string) exactly when
    the received text is canonical fixed-point text; any other spelling
    (a zero at the end of the fraction, an exponent, a [+], a zero in
    front, a minus before zero) is replaced by the canonical one. *)
Theorem amount_text_is_Decimal_String
  (y : yaya) (o : JSONObject) (req : YayaWebhook) (cs : list Call) (now : Z) :
  Decode (Object o) = Some req ->
  let text := decimal.String_ (Amount req) in
  let received := decimal.unquoteIfQuoted (j_amount o) in
  decimal.UnmarshalJSON (j_amount o) = Some (Amount req)
  /\ signedPayload req
     = (ID req ++ text ++ Currency_ req
        ++ strconv.FormatInt (CreatedAtTime req)
        ++ strconv.FormatInt (TimeStamp req)
        ++ Cause req ++ FullName req ++ AccountName req ++ InvoiceURL req)%string
  /\ (exists row,
        rows_of (ID req) (Ingest y (mkCall req NoFault now) (Ingest_all y cs None))
        = [row]
        /\ amount row = text)
  /\ (exists d',
        decimal.NewFromString text = Some d' /\ same_number (Amount req) d')
  /\ canonical_text text
  /\ (text = received <-> canonical_text received).
Proof.
  intros D. cbv zeta. destruct (Decode_amount o req D) as [U He].
  split; [exact U|].
  split; [apply signedPayload_concat|].
  split.
  { rewrite <- Ingest_all_snoc, rows_of_history. unfold history_rows.
    rewrite deliveries_snoc. cbn [succeeded c_fault c_event andb].
    rewrite String.eqb_refl.
    destruct (deliveries (ID req) cs) as [|c1 rest]; cbn [app].
    - eexists. split; reflexivity.
    - eexists. split; [reflexivity|]. rewrite last_last. reflexivity. }
  split; [now apply NewFromString_String|].
  split; [now apply String_is_canonical|].
  split.
  - intros E. rewrite <- E. now apply String_is_canonical.
  - intros Hc. destruct (canonical_text_kept _ Hc) as (d0 & Hn & Hs).
    unfold decimal.UnmarshalJSON in U.
    destruct (String.eqb_spec (j_amount o) "null") as [En|En].
    + rewrite En in Hn. vm_compute in Hn. discriminate.
    + rewrite Hn in U. injection U as <-. exact Hs.
Qed.

Lemma amount_text_is_Decimal_String_witness :
  signedPayload scenario_event
  = (ID scenario_event ++ decimal.String_ (Amount scenario_event)
     ++ Currency_ scenario_event
     ++ strconv.FormatInt (CreatedAtTime scenario_event)
     ++ strconv.FormatInt (TimeStamp scenario_event)
     ++ Cause scenario_event ++ FullName scenario_event
     ++ AccountName scenario_event ++ InvoiceURL scenario_event)%string.
Proof.
  apply (amount_text_is_Decimal_String (mkYaya "secret") scenario_object
           scenario_event [] 1700000001000000000).
  reflexivity.
Defined.

(* ================================================================== *)
(** * Further properties of the handlers and the store *)

(** ** Accepted and rejected requests *)

Lemma go_ingestion_db (y : yaya) (s : Sched) (req : YayaWebhook) (w : World) :
  db (snd (go_ s (ingestion_task y req) (Encode success) w))
  = Ingest y (mkCall req (fault w) (clock w)) (db w).
Proof.
  unfold Ingest. cbn [c_event c_fault c_now].
  destruct s; unfold go_, ingestion_task, bind; cbn [Encode];
    rewrite !saveWebhookToDatabase_run; destruct w as [c f d l o];
    destruct f; reflexivity.
Qed.

Lemma Decode_int64 (o : JSONObject) (req : YayaWebhook) :
  Decode (Object o) = Some req ->
  MinInt64 <= TimeStamp req <= MaxInt64.
Proof.
  unfold Decode.
  destruct (in_int64 (j_created_at_time o)); cbn [andb]; [|discriminate].
  destruct (in_int64 (j_timestamp o)) eqn:Ht; [|discriminate].
  destruct (decimal.UnmarshalJSON (j_amount o)); [|discriminate].
  intros H. injection H as <-. cbn [TimeStamp].
  unfold in_int64 in Ht. apply andb_true_iff in Ht. rewrite !Z.leb_le in Ht.
  exact Ht.
Qed.

Lemma signature_of_nonempty (k : string) (p : YayaWebhook) :
  signature_of k p <> EmptyString.
Proof.
  intros E. pose proof (proj1 (signature_of_shape k p)) as L.
  rewrite E in L. discriminate.
Qed.

(** X1. A request whose body decodes, whose timestamp is at most 300 seconds
    old and whose header carries what [generateSignature] returns for the
    decoded event is accepted, whenever the goroutine runs; with a working
    store the event is then in table [webhooks], upserted with the instant
    of the clock. *)
Theorem signed_fresh_request_is_stored
  (y : yaya) (s : Sched) (o : JSONObject) (req : YayaWebhook) (w : World) :
  Decode (Object o) = Some req ->
  0 <= time.Unix (clock w) < MaxInt64 ->
  0 <= time.Unix (clock w) - TimeStamp req <= 300 ->
  let token := fst (generateSignature y (SecretKey y) req w) in
  let w' := snd (YayayWebhookHandler y s (mkRequest (Some token) (Object o))
                   (with_fault NoFault w)) in
  wire w' = (wire w ++ [success])%list
  /\ db w' = Some (sql.upsert (row_of req (clock w)) (table_of (db w)))
  /\ In (ID req) (ids (db w')).
Proof.
  intros D HT Hfresh. cbv zeta.
  rewrite generateSignature_run. cbn [fst].
  set (r := mkRequest (Some (signature_of (SecretKey y) req)) (Object o)).
  assert (Header_Get r <> EmptyString) as H by apply signature_of_nonempty.
  assert (fst (validateTimestamp y (TimeStamp req) (5 * time.Minute)
                 (with_fault NoFault w)) = true) as V.
  { apply validateTimestamp_iff; cbn [with_fault clock];
      [exact HT|now apply (Decode_int64 o)|exact Hfresh]. }
  assert (fst (verifySignature y (Header_Get r) req (with_fault NoFault w)) = true)
    as G.
  { rewrite verifySignature_run. cbn [fst]. apply GoString_eq_refl. }
  rewrite (handler_accepts y s r (with_fault NoFault w) req H D V G).
  assert (db (snd (go_ s (ingestion_task y req) (Encode success)
                     (add_logs auth_logs (with_fault NoFault w))))
          = Some (sql.upsert (row_of req (clock w)) (table_of (db w)))) as Hdb.
  { rewrite go_ingestion_db. unfold Ingest.
    rewrite saveWebhookToDatabase_run. reflexivity. }
  repeat apply conj.
  - apply (go_ingestion_effect y s req (add_logs auth_logs (with_fault NoFault w))).
  - exact Hdb.
  - rewrite Hdb. unfold ids. cbn [table_of]. apply upsert_In_ids. now right.
Qed.

Lemma signed_fresh_request_is_stored_witness :
  wire (snd (YayayWebhookHandler (mkYaya "secret") TaskLast
               (mkRequest
                  (Some (fst (generateSignature (mkYaya "secret")
                                (SecretKey (mkYaya "secret")) scenario_event
                                fresh_world)))
                  (Object scenario_object))
               (with_fault NoFault fresh_world)))
  = (wire fresh_world ++ [success])%list.
Proof.
  assert (0 <= time.Unix (clock fresh_world) < MaxInt64) as HT
    by (vm_compute; split; [discriminate|reflexivity]).
  assert (0 <= time.Unix (clock fresh_world) - TimeStamp scenario_event <= 300)
    as HF by (vm_compute; split; discriminate).
  exact (proj1 (signed_fresh_request_is_stored (mkYaya "secret") TaskLast
                  scenario_object scenario_event fresh_world eq_refl HT HF)).
Defined.

(** X2. The handler answers every request once.  Unless the answer is the
    success response, the store is exactly as it was: a request that
    fails a check never reaches the database. *)
Theorem rejected_request_leaves_store_untouched
  (y : yaya) (s : Sched) (r : Request) (w : World) :
  let w' := snd (YayayWebhookHandler y s r w) in
  exists resp,
    wire w' = (wire w ++ [resp])%list
    /\ (resp = success \/ StatusCode resp = StatusBadRequest)
    /\ (resp <> success -> db w' = db w /\ fault w' = fault w /\ clock w' = clock w).
Proof.
  cbv zeta.
  destruct (string_dec (Header_Get r) EmptyString) as [H|H].
  { exists (rejection "signature is missing").
    rewrite handler_missing_signature by assumption.
    repeat split. now right. }
  destruct (Decode (body r)) as [req|] eqn:D.
  2:{ exists (rejection "invalid data").
      rewrite handler_invalid_data by assumption.
      repeat split. now right. }
  destruct (fst (validateTimestamp y (TimeStamp req) (5 * time.Minute) w)) eqn:V.
  2:{ exists (rejection "invalid timestamp").
      rewrite (handler_invalid_timestamp y s r w req) by assumption.
      repeat split. now right. }
  destruct (fst (verifySignature y (Header_Get r) req w)) eqn:G.
  2:{ exists (rejection "invalid signature").
      rewrite (handler_invalid_signature y s r w req) by assumption.
      repeat split. now right. }
  exists success.
  rewrite (handler_accepts y s r w req) by assumption.
  split; [apply (go_ingestion_effect y s req (add_logs auth_logs w))|].
  split; [now left|]. intros C. now contradiction C.
Qed.

Lemma all_chars_eq (p : ascii -> bool) (a b : string) :
  a = b -> all_chars p a = all_chars p b.
Proof. now intros ->. Qed.

(** X3. The comparison is exact in length and in case: a token that is not 64
    bytes long, or that holds any byte other than [0]-[9] and [a]-[f]
    (an upper-case digest, surrounding space), never verifies, for any
    event and secret. *)
Theorem malformed_token_never_verifies
  (y : yaya) (token : string) (payload : YayaWebhook) (w : World) :
  String.length token <> 64%nat \/ all_chars lower_hex token = false ->
  fst (verifySignature y token payload w) = false.
Proof.
  intros Hbad. rewrite verifySignature_run. cbn [fst].
  apply GoString_eq_false. intros E.
  destruct (signature_of_shape (SecretKey y) payload) as [L A].
  rewrite <- E in L, A.
  destruct Hbad as [Hl|Ha]; [contradiction|congruence].
Qed.

Lemma malformed_token_never_verifies_witness :
  fst (verifySignature (mkYaya "secret")
         "F16684BE073432042524784B8845FAD85161C541DE85338A3764C673431003CB"
         scenario_event idle_world) = false.
Proof.
  apply malformed_token_never_verifies. right. reflexivity.
Defined.

(** ** What [saveWebhookToDatabase] returns and leaves behind *)


Lemma do_update_self (r : Row) : sql.do_update r r = r.
Proof. destruct r; reflexivity. Qed.

Lemma do_update_twice (old new : Row) :
  sql.do_update (sql.do_update old new) new = sql.do_update old new.
Proof. reflexivity. Qed.

Lemma upsert_idempotent (new : Row) (t : Table) :
  sql.upsert new (sql.upsert new t) = sql.upsert new t.
Proof.
  induction t as [|r t IH]; cbn.
  - now rewrite String.eqb_refl, do_update_self.
  - destruct (String.eqb (id r) (id new)) eqn:E; cbn.
    + now rewrite E.
    + now rewrite E, IH.
Qed.

(** X6. Running the same call again (the same event, the same instant, the
    same behaviour of the store) changes nothing more, from any store. *)
Theorem Ingest_idempotent (y : yaya) (c : Call) (d : option Table) :
  Ingest y c (Ingest y c d) = Ingest y c d.
Proof.
  unfold Ingest. rewrite !saveWebhookToDatabase_run.
  cbn [fault clock db snd].
  destruct (c_fault c); cbn [fault clock db snd table_of]; try reflexivity.
  now rewrite upsert_idempotent.
Qed.

Lemma deliveries_app (k : string) (a b : list Call) :
  deliveries k (a ++ b) = (deliveries k a ++ deliveries k b)%list.
Proof. unfold deliveries. apply filter_app. Qed.

(** X7. Ingestions of two different identifiers commute: after either order
    every identifier has the same rows. *)
Theorem ingestions_of_distinct_ids_commute
  (y : yaya) (cs : list Call) (c1 c2 : Call) (k : string) :
  ID (c_event c1) <> ID (c_event c2) ->
  rows_of k (Ingest_all y (cs ++ [c1; c2]) None)
  = rows_of k (Ingest_all y (cs ++ [c2; c1]) None).
Proof.
  intros Hne. rewrite !rows_of_history. unfold history_rows.
  rewrite !deliveries_app. f_equal.
  unfold deliveries. cbn [filter].
  destruct (String.eqb_spec (ID (c_event c1)) k) as [E1|E1];
    destruct (String.eqb_spec (ID (c_event c2)) k) as [E2|E2];
    try congruence;
    rewrite ?andb_false_r, ?andb_true_r;
    destruct (succeeded c1), (succeeded c2); reflexivity.
Qed.

Lemma ingestions_of_distinct_ids_commute_witness :
  rows_of "abc123"
    (Ingest_all (mkYaya "secret")
       ([] ++ [mkCall scenario_event NoFault 5;
               mkCall (mkYayaWebhook "other" (decimal.mkDecimal 1 0) "ETB" 1 2
                         "c" "f" "a" "u") NoFault 6]) None)
  = rows_of "abc123"
      (Ingest_all (mkYaya "secret")
         ([] ++ [mkCall (mkYayaWebhook "other" (decimal.mkDecimal 1 0) "ETB" 1 2
                           "c" "f" "a" "u") NoFault 6;
                 mkCall scenario_event NoFault 5]) None).
Proof.
  apply (ingestions_of_distinct_ids_commute (mkYaya "secret") []
           (mkCall scenario_event NoFault 5)
           (mkCall (mkYayaWebhook "other" (decimal.mkDecimal 1 0) "ETB" 1 2
                      "c" "f" "a" "u") NoFault 6) "abc123").
  discriminate.
Defined.

(** X8. After any sequence of calls an identifier has no row if no call for it
    succeeded, and otherwise exactly one: its payload columns and
    [updated_at] are those of the last call that succeeded, its
    [created_at] is the instant of the first.  Calls that failed, and
    calls for other identifiers, leave no trace in it. *)
Theorem store_reflects_first_and_last_write
  (y : yaya) (cs : list Call) (k : string) :
  let rows := rows_of k (Ingest_all y cs None) in
  match deliveries k cs with
  | [] => rows = []
  | first :: rest =>
      let latest := last rest first in
      let e := c_event latest in
      rows = [mkRow k (decimal.String_ (Amount e)) (Currency_ e) (CreatedAtTime e)
                (TimeStamp e) (Cause e) (FullName e) (AccountName e) (InvoiceURL e)
                (c_now first) (c_now latest)]
  end.
Proof.
  cbv zeta. rewrite rows_of_history. unfold history_rows.
  destruct (deliveries k cs) as [|first rest] eqn:D; [reflexivity|].
  unfold stored_row. f_equal. f_equal.
  assert (In (last rest first) (deliveries k cs)) as Hin.
  { rewrite D. destruct rest as [|c rest'] using rev_ind.
    - now left.
    - rewrite last_last. right. apply in_or_app. right. now left. }
  unfold deliveries in Hin. apply filter_In in Hin as [_ Hk].
  apply andb_true_iff in Hk as [_ Hk]. now apply String.eqb_eq.
Qed.

(** ** The same request delivered twice *)





(** ** Looking a webhook up *)

Lemma GetWebhookHandler_run (y : yaya) (q : QueryOutcome) (path : string) (w : World) :
  (9 <= String.length path)%nat ->
  GoString.drop 9 path <> EmptyString ->
  GetWebhookHandler y q path w
  = match fault w with
    | OpenFails | CreateTableFails =>
        (Some database_error, add_logs [mkLog LevelError "Failed to create table"] w)
    | _ =>
        match q with
        | QueryFails =>
            (Some database_error,
             add_logs [mkLog LevelError "Failed to query webhook"] (with_table w))
        | QueryRuns =>
            match sql.select_by_id (GoString.drop 9 path) (table_of (db w)) with
            | [] => (Some not_found, with_table w)
            | r :: _ => (Some (found r), with_table w)
            end
        end
    end.
Proof.
  intros Hlen Hid. unfold GetWebhookHandler.
  change (String.length "/webhook/") with 9%nat.
  destruct (Nat.ltb_spec (String.length path) 9) as [?|_]; [lia|].
  apply String.eqb_neq in Hid. rewrite Hid.
  destruct w as [c f d l o].
  destruct f, d as [t|], q; try reflexivity;
    unfold bind, sql.Open, sql.Exec_create_table, QueryRow_Scan, with_table;
    cbn [fault db clock logs wire table_of set_db ret bind fst snd];
    try (destruct (sql.select_by_id (GoString.drop 9 path) t); reflexivity);
    try (destruct (sql.select_by_id (GoString.drop 9 path) []); reflexivity).
Qed.

Lemma path_of_id (k : string) :
  (9 <= String.length ("/webhook/" ++ k))%nat
  /\ GoString.drop 9 ("/webhook/" ++ k) = k.
Proof. split; [cbn; lia|reflexivity]. Qed.

(** X9. An event that was ingested can be looked up: the reply to
    [/webhook/<id>] is the JSON object of the nine columns of that event,
    the amount as the text [Amount.String()], sent with status 200 and
    content type [application/json]; the lookup changes nothing. *)
Theorem lookup_after_ingest
  (y : yaya) (cs : list Call) (e : YayaWebhook) (now c : Z) (f : Fault)
  (l : list LogRecord) (out : list Response) :
  ID e <> EmptyString ->
  f <> OpenFails -> f <> CreateTableFails ->
  let w := mkWorld c f (Ingest y (mkCall e NoFault now) (Ingest_all y cs None)) l out in
  GetWebhookHandler y QueryRuns ("/webhook/" ++ ID e) w
  = (Some (mkReply StatusOK (Some "application/json"%string)
             (PObject
                [("id"%string, JString (ID e));
                 ("amount"%string, JString (decimal.String_ (Amount e)));
                 ("currency"%string, JString (Currency_ e));
                 ("created_at_time"%string, JInt (CreatedAtTime e));
                 ("timestamp"%string, JInt (TimeStamp e));
                 ("cause"%string, JString (Cause e));
                 ("full_name"%string, JString (FullName e));
                 ("account_name"%string, JString (AccountName e));
                 ("invoice_url"%string, JString (InvoiceURL e))])),
     w).
Proof.
  intros Hid Hf1 Hf2 w.
  destruct (path_of_id (ID e)) as [Hlen Hdrop].
  rewrite GetWebhookHandler_run by (rewrite ?Hdrop; assumption).
  rewrite Hdrop.
  assert (rows_of (ID e) (db w)
          = history_rows (ID e) (cs ++ [mkCall e NoFault now])) as R.
  { unfold w. cbn [db]. now rewrite <- Ingest_all_snoc, rows_of_history. }
  unfold rows_of in R. rewrite R. unfold history_rows.
  rewrite deliveries_snoc. cbn [succeeded c_fault c_event andb].
  rewrite String.eqb_refl.
  assert (with_table w = w) as Hw.
  { unfold with_table, w. cbn [clock fault db logs wire]. f_equal.
    unfold Ingest. rewrite saveWebhookToDatabase_run. reflexivity. }
  rewrite Hw.
  destruct (deliveries (ID e) cs) as [|c1 rest]; cbn [app];
    [|rewrite last_last];
    destruct f; try contradiction; reflexivity.
Qed.

Lemma lookup_after_ingest_witness :
  fst (GetWebhookHandler (mkYaya "secret") QueryRuns ("/webhook/" ++ ID trailing_zero_event)
         (mkWorld 7 NoFault
            (Ingest (mkYaya "secret") (mkCall trailing_zero_event NoFault 5)
               (Ingest_all (mkYaya "secret") [] None)) [] []))
  = Some (mkReply StatusOK (Some "application/json"%string)
            (PObject
               [("id"%string, JString "abc123");
                ("amount"%string, JString "100.5");
                ("currency"%string, JString "ETB");
                ("created_at_time"%string, JInt 1700000000);
                ("timestamp"%string, JInt 1700000000);
                ("cause"%string, JString "Testing");
                ("full_name"%string, JString "Abebe Kebede");
                ("account_name"%string, JString "abebekebede1");
                ("invoice_url"%string,
                 JString "https://yayawallet.com/en/invoice/xxxx")])).
Proof.
  rewrite (lookup_after_ingest (mkYaya "secret") [] trailing_zero_event 5 7 NoFault
             [] []); [reflexivity|discriminate..].
Defined.

(** X10. An identifier for which no ingestion succeeded is answered
    [webhook not found]; the answer is a [Response] with [status_code]
    404.  On a database that has no table yet the lookup creates the
    empty table and answers the same. *)
Theorem lookup_of_unknown_id
  (y : yaya) (cs : list Call) (k : string) (c : Z) (f : Fault)
  (l : list LogRecord) (out : list Response) :
  k <> EmptyString ->
  f <> OpenFails -> f <> CreateTableFails ->
  deliveries k cs = [] ->
  let w := mkWorld c f (Ingest_all y cs None) l out in
  fst (GetWebhookHandler y QueryRuns ("/webhook/" ++ k) w)
  = Some (encode_reply (mkResponse StatusNotFound EmptyString "webhook not found"))
  /\ db (snd (GetWebhookHandler y QueryRuns ("/webhook/" ++ k) w))
     = Some (table_of (Ingest_all y cs None))
  /\ db (snd (GetWebhookHandler y QueryRuns ("/webhook/" ++ k)
                (mkWorld c f None l out)))
     = Some [].
Proof.
  intros Hk Hf1 Hf2 D w.
  destruct (path_of_id k) as [Hlen Hdrop].
  rewrite !GetWebhookHandler_run by (rewrite ?Hdrop; assumption).
  rewrite Hdrop.
  pose proof (rows_of_history y cs k) as R. unfold rows_of, history_rows in R.
  rewrite D in R. unfold w. cbn [db fault table_of]. rewrite R.
  cbn [sql.select_by_id filter].
  destruct f; try contradiction; repeat split; reflexivity.
Qed.

Lemma lookup_of_unknown_id_witness :
  fst (GetWebhookHandler (mkYaya "secret") QueryRuns ("/webhook/" ++ "nobody")
         (mkWorld 9 NoFault
            (Ingest_all (mkYaya "secret") [mkCall scenario_event NoFault 5] None)
            [] []))
  = Some (encode_reply (mkResponse StatusNotFound EmptyString "webhook not found")).
Proof.
  apply (lookup_of_unknown_id (mkYaya "secret") [mkCall scenario_event NoFault 5]
           "nobody" 9 NoFault [] []); [discriminate..|reflexivity].
Defined.

Lemma GetWebhookHandler_short (y : yaya) (q : QueryOutcome) (path : string) (w : World) :
  (String.length path < 9)%nat -> GetWebhookHandler y q path w = (None, w).
Proof.
  intros H. unfold GetWebhookHandler.
  change (String.length "/webhook/") with 9%nat.
  destruct (Nat.ltb_spec (String.length path) 9); [reflexivity|lia].
Qed.

Lemma GetWebhookHandler_no_id (y : yaya) (q : QueryOutcome) (path : string) (w : World) :
  (9 <= String.length path)%nat ->
  GoString.drop 9 path = EmptyString ->
  GetWebhookHandler y q path w = (Some id_required, w).
Proof.
  intros H E. unfold GetWebhookHandler.
  change (String.length "/webhook/") with 9%nat.
  destruct (Nat.ltb_spec (String.length path) 9); [lia|].
  rewrite E. reflexivity.
Qed.

(** X11. A lookup never changes a stored row, whatever the path and whatever
    the store does: it writes no response of the webhook handler, keeps
    the clock, and at most creates the empty table.  A path shorter than
    the prefix [/webhook/] makes the slice expression panic before
    anything is read; the bare prefix is answered [webhook ID is required]
    without opening the database.  The prefix itself is never compared:
    the reply depends only on what follows the first nine bytes. *)
Theorem GetWebhookHandler_reads_only
  (y : yaya) (q : QueryOutcome) (path : string) (w : World) :
  let w' := snd (GetWebhookHandler y q path w) in
  table_of (db w') = table_of (db w)
  /\ wire w' = wire w /\ clock w' = clock w /\ fault w' = fault w
  /\ ((String.length path < 9)%nat ->
      GetWebhookHandler y q path w = (None, w))
  /\ (path = "/webhook/"%string ->
      GetWebhookHandler y q path w
      = (Some (encode_reply
                 (mkResponse StatusBadRequest EmptyString "webhook ID is required")),
         w))
  /\ (forall path',
        (9 <= String.length path)%nat -> (9 <= String.length path')%nat ->
        GoString.drop 9 path = GoString.drop 9 path' ->
        GetWebhookHandler y q path w = GetWebhookHandler y q path' w).
Proof.
  cbv zeta.
  assert (table_of (db (snd (GetWebhookHandler y q path w))) = table_of (db w)
          /\ wire (snd (GetWebhookHandler y q path w)) = wire w
          /\ clock (snd (GetWebhookHandler y q path w)) = clock w
          /\ fault (snd (GetWebhookHandler y q path w)) = fault w) as Hframe.
  { destruct (Nat.ltb_spec (String.length path) 9) as [Hs|Hl].
    - rewrite GetWebhookHandler_short by assumption. repeat split.
    - destruct (string_dec (GoString.drop 9 path) EmptyString) as [E|E].
      + rewrite GetWebhookHandler_no_id by assumption. repeat split.
      + rewrite GetWebhookHandler_run by assumption.
        generalize (GoString.drop 9 path). intros k.
        destruct w as [c f d l o]. cbn [fault db].
        destruct f, q;
          try (destruct (sql.select_by_id k (table_of d)));
          destruct d; repeat split. }
  destruct Hframe as (H1 & H2 & H3 & H4).
  repeat apply conj; try assumption.
  - apply GetWebhookHandler_short.
  - intros ->. apply GetWebhookHandler_no_id; [cbn; lia|reflexivity].
  - intros path' Hl Hl' E.
    destruct (string_dec (GoString.drop 9 path) EmptyString) as [E0|E0].
    + rewrite !GetWebhookHandler_no_id; try assumption; [reflexivity|congruence].
    + rewrite !GetWebhookHandler_run; try assumption; [|congruence].
      now rewrite E.
Qed.

(** X12. Which HTTP status a lookup is sent with, for a path that names an
    identifier: 500, as the plain text [Database error], exactly when the
    connection, the table creation or the query failed; 200 otherwise.
    In particular [webhook not found] goes out with HTTP status 200 and
    no content type of its own: only the [status_code] member of the body
    says 404. *)
Theorem GetWebhookHandler_http_status
  (y : yaya) (q : QueryOutcome) (path : string) (w : World) :
  (9 <= String.length path)%nat ->
  GoString.drop 9 path <> EmptyString ->
  exists reply,
    fst (GetWebhookHandler y q path w) = Some reply
    /\ (http_status reply = StatusInternalServerError
        <-> fault w = OpenFails \/ fault w = CreateTableFails \/ q = QueryFails)
    /\ (http_status reply = StatusInternalServerError ->
        reply = http_Error "Database error" StatusInternalServerError)
    /\ (http_status reply <> StatusInternalServerError ->
        http_status reply = StatusOK
        /\ (reply = mkReply StatusOK None
                      (PResponse (mkResponse StatusNotFound EmptyString
                                    "webhook not found"))
            \/ exists r, In r (table_of (db w))
                         /\ id r = GoString.drop 9 path
                         /\ reply = mkReply StatusOK (Some "application/json"%string)
                                      (PObject (webhook_object r)))).
Proof.
  intros Hl E. rewrite GetWebhookHandler_run by assumption.
  assert (forall r rest,
            sql.select_by_id (GoString.drop 9 path) (table_of (db w)) = r :: rest ->
            In r (table_of (db w)) /\ id r = GoString.drop 9 path) as Hsel.
  { intros r rest S.
    assert (In r (sql.select_by_id (GoString.drop 9 path) (table_of (db w)))) as Hin
      by (rewrite S; now left).
    split; [|now apply (select_by_id_id _ _ _ Hin)].
    unfold sql.select_by_id in Hin. now apply filter_In in Hin. }
  destruct (fault w) eqn:F, q;
    try (eexists; split; [reflexivity|];
         split; [split; [intros _; tauto|reflexivity]|];
         split; [reflexivity|]; intros C; now contradiction C).
  - destruct (sql.select_by_id (GoString.drop 9 path) (table_of (db w)))
      as [|r rest] eqn:S.
    + exists not_found. split; [reflexivity|].
      split; [split; [discriminate|intros [C|[C|C]]; discriminate]|].
      split; [discriminate|]. intros _. split; [reflexivity|now left].
    + exists (found r). split; [reflexivity|].
      split; [split; [discriminate|intros [C|[C|C]]; discriminate]|].
      split; [discriminate|]. intros _. split; [reflexivity|].
      right. exists r. destruct (Hsel r rest eq_refl). now repeat split.
  - destruct (sql.select_by_id (GoString.drop 9 path) (table_of (db w)))
      as [|r rest] eqn:S.
    + exists not_found. split; [reflexivity|].
      split; [split; [discriminate|intros [C|[C|C]]; discriminate]|].
      split; [discriminate|]. intros _. split; [reflexivity|now left].
    + exists (found r). split; [reflexivity|].
      split; [split; [discriminate|intros [C|[C|C]]; discriminate]|].
      split; [discriminate|]. intros _. split; [reflexivity|].
      right. exists r. destruct (Hsel r rest eq_refl). now repeat split.
Qed.

Lemma GetWebhookHandler_http_status_witness :
  exists reply,
    fst (GetWebhookHandler (mkYaya "secret") QueryRuns "/webhook/nobody"
           idle_world) = Some reply
    /\ http_status reply = StatusOK.
Proof.
  destruct (GetWebhookHandler_http_status (mkYaya "secret") QueryRuns
              "/webhook/nobody" idle_world) as (reply & E & H5 & _ & Hok).
  - cbn. lia.
  - discriminate.
  - exists reply. split; [exact E|].
    apply Hok. intros C. apply H5 in C. destruct C as [C|[C|C]]; discriminate.
Defined.

(** ** Listing the stored webhooks *)

Section Listing.

Variable order_by_created_at_desc : Table -> Table.
Variable datetime_text : Z -> string.

(** All that is asked of [ORDER BY]: it returns the rows of the table,
    each once, in some order. *)
Hypothesis order_permutes : forall t, Permutation (order_by_created_at_desc t) t.

Lemma collect_from (rows : Table) :
  forall l,
    fold_left
      (fun webhooks r =>
         match webhooks with
         | None => Some [debug_object datetime_text r]
         | Some l => Some (l ++ [debug_object datetime_text r])%list
         end)
      rows (Some l)
    = Some (l ++ map (debug_object datetime_text) rows)%list.
Proof.
  induction rows as [|r rows IH]; intros l; cbn [fold_left map].
  - now rewrite app_nil_r.
  - rewrite IH, <- app_assoc. reflexivity.
Qed.

Lemma collect_rows (rows : Table) :
  collect datetime_text rows
  = match rows with
    | [] => None
    | _ => Some (map (debug_object datetime_text) rows)
    end.
Proof.
  destruct rows as [|r rows]; [reflexivity|].
  unfold collect. cbn [fold_left]. now rewrite collect_from.
Qed.

Lemma DebugWebhooksHandler_run (y : yaya) (w : World) :
  fault w <> OpenFails -> fault w <> CreateTableFails ->
  DebugWebhooksHandler order_by_created_at_desc datetime_text y QueryRuns w
  = (let webhooks :=
       collect datetime_text (order_by_created_at_desc (table_of (db w))) in
     mkReply StatusOK (Some "application/json"%string)
       (PListing (len_webhooks webhooks) webhooks),
     with_table w).
Proof.
  intros H1 H2. destruct w as [c f d l o]. cbn [fault] in *.
  destruct f; try contradiction; destruct d; reflexivity.
Qed.

Lemma member_id_debug (rows : Table) :
  map (member "id") (map (debug_object datetime_text) rows)
  = map (fun r => Some (JString (id r))) rows.
Proof. rewrite map_map. apply map_ext. intros r. reflexivity. Qed.

(** X13. With a working store the listing has one entry for every identifier
    that was successfully ingested and for no other, none twice, and
    [count] is their number.  When nothing is stored, [webhooks] is the
    nil slice, which is encoded as JSON [null], not as an empty array. *)
Theorem DebugWebhooksHandler_lists_each_id_once
  (y : yaya) (cs : list Call) (c : Z) (f : Fault)
  (l : list LogRecord) (out : list Response) :
  f <> OpenFails -> f <> CreateTableFails ->
  let w := mkWorld c f (Ingest_all y cs None) l out in
  exists count webhooks,
    fst (DebugWebhooksHandler order_by_created_at_desc datetime_text y QueryRuns w)
    = mkReply StatusOK (Some "application/json"%string) (PListing count webhooks)
    /\ count = Z.of_nat (List.length (items webhooks))
    /\ count = Z.of_nat (List.length (ids (db w)))
    /\ Permutation (map (member "id") (items webhooks))
         (map (fun k => Some (JString k)) (ids (db w)))
    /\ NoDup (map (member "id") (items webhooks))
    /\ (forall k,
          In (Some (JString k)) (map (member "id") (items webhooks))
          <-> deliveries k cs <> [])
    /\ (webhooks = None <-> forall k, deliveries k cs = []).
Proof.
  intros H1 H2 w.
  rewrite DebugWebhooksHandler_run by assumption. cbv zeta. cbn [fst].
  set (t := table_of (db w)).
  set (rows := order_by_created_at_desc t).
  assert (Permutation rows t) as P by apply order_permutes.
  assert (items (collect datetime_text rows) = map (debug_object datetime_text) rows)
    as Hitems.
  { rewrite collect_rows. destruct rows; reflexivity. }
  assert (len_webhooks (collect datetime_text rows) = Z.of_nat (List.length rows))
    as Hlen.
  { rewrite collect_rows. destruct rows; [reflexivity|].
    cbn [len_webhooks]. now rewrite length_map. }
  assert (forall k, In k (map id t) <-> deliveries k cs <> []) as Hids.
  { intros k. rewrite <- select_by_id_In.
    pose proof (rows_of_history y cs k) as R. unfold rows_of in R.
    change t with (table_of (Ingest_all y cs None)).
    rewrite R. unfold history_rows.
    destruct (deliveries k cs); split; intros H; try discriminate; congruence. }
  assert (Permutation (map (member "id") (map (debug_object datetime_text) rows))
            (map (fun k => Some (JString k)) (map id t))) as Pids.
  { rewrite member_id_debug, map_map. now apply Permutation_map. }
  exists (len_webhooks (collect datetime_text rows)), (collect datetime_text rows).
  rewrite Hitems. repeat apply conj.
  - reflexivity.
  - now rewrite Hlen, length_map.
  - rewrite Hlen. unfold ids. fold t. rewrite length_map.
    f_equal. now apply Permutation_length.
  - exact Pids.
  - apply (Permutation_NoDup (Permutation_sym Pids)).
    apply Finite.Injective_map_NoDup.
    + intros a b E. now injection E.
    + apply (Ingest_all_NoDup y cs).
  - intros k. rewrite <- Hids. split.
    + intros Hin. apply (Permutation_in _ Pids) in Hin.
      apply in_map_iff in Hin as (k' & E & Hin). injection E as ->. exact Hin.
    + intros Hin. apply (Permutation_in _ (Permutation_sym Pids)).
      apply in_map_iff. exists k. split; [reflexivity|exact Hin].
  - rewrite collect_rows. intros Hn k.
    destruct rows as [|r rows'] eqn:Er; [|discriminate].
    apply Permutation_nil in P.
    destruct (deliveries k cs) eqn:D; [reflexivity|].
    exfalso. assert (In k (map id t)) as Hin by (apply Hids; rewrite D; discriminate).
    rewrite P in Hin. exact Hin.
  - rewrite collect_rows. intros Hall.
    destruct rows as [|r rows'] eqn:Er; [reflexivity|].
    exfalso. assert (In r t) as Hin by (apply (Permutation_in _ P); now left).
    assert (In (id r) (map id t)) as Hin' by now apply in_map.
    apply Hids in Hin'. apply Hin'. apply Hall.
Qed.

End Listing.

Lemma DebugWebhooksHandler_lists_each_id_once_witness :
  exists count webhooks,
    fst (DebugWebhooksHandler (fun t => rev t) strconv.FormatInt (mkYaya "secret")
           QueryRuns
           (mkWorld 9 NoFault
              (Ingest_all (mkYaya "secret")
                 [mkCall scenario_event NoFault 5;
                  mkCall redelivered_event NoFault 6] None) [] []))
    = mkReply StatusOK (Some "application/json"%string) (PListing count webhooks)
    /\ count = 1.
Proof.
  destruct (DebugWebhooksHandler_lists_each_id_once (fun t => rev t)
              strconv.FormatInt (fun t => Permutation_sym (Permutation_rev t))
              (mkYaya "secret")
              [mkCall scenario_event NoFault 5; mkCall redelivered_event NoFault 6]
              9 NoFault [] [])
    as (count & webhooks & E & _ & Hc & _); [discriminate..|].
  exists count, webhooks. split; [exact E|]. rewrite Hc. reflexivity.
Defined.

(** ** The two versions of the handler file *)

Lemma V0_validateTimestamp_run (y : yaya) (ts : Z) (tol : time.Duration) (w : World) :
  V0.validateTimestamp y ts tol w
  = (fst (validateTimestamp y ts tol w), w).
Proof. destruct w; reflexivity. Qed.

Lemma V0_verifySignature_run (y : yaya) (sig : string) (p : YayaWebhook) (w : World) :
  V0.verifySignature y sig p w = (fst (verifySignature y sig p w), w).
Proof. rewrite verifySignature_run. reflexivity. Qed.

Lemma V0_handler_accepts (y : yaya) (s : Sched) (r : Request) (w : World)
      (req : YayaWebhook) :
  Header_Get r <> EmptyString ->
  Decode (body r) = Some req ->
  fst (validateTimestamp y (TimeStamp req) (5 * time.Minute) w) = true ->
  fst (verifySignature y (Header_Get r) req w) = true ->
  V0.YayayWebhookHandler y s r w
  = go_ s (ingestion_task y req) (Encode success) w.
Proof.
  intros H D V G. unfold V0.YayayWebhookHandler.
  rewrite (header_present r H), D. unfold bind at 1.
  rewrite V0_validateTimestamp_run, V. cbn [negb]. unfold bind at 1.
  rewrite V0_verifySignature_run, G. reflexivity.
Qed.

Lemma V0_handler_rejects (y : yaya) (s : Sched) (r : Request) (w : World) :
  (Header_Get r = EmptyString ->
   V0.YayayWebhookHandler y s r w
   = (tt, add_wire (rejection "signature is missing")
            (add_logs [mkLog LevelError "Signature is missing"] w)))
  /\ (Header_Get r <> EmptyString -> Decode (body r) = None ->
      V0.YayayWebhookHandler y s r w
      = (tt, add_wire (rejection "invalid data")
               (add_logs [mkLog LevelError "Error decoding request"] w)))
  /\ (forall req,
        Header_Get r <> EmptyString -> Decode (body r) = Some req ->
        fst (validateTimestamp y (TimeStamp req) (5 * time.Minute) w) = false ->
        V0.YayayWebhookHandler y s r w
        = (tt, add_wire (rejection "invalid timestamp")
                 (add_logs [mkLog LevelError "Invalid timestamp"] w)))
  /\ (forall req,
        Header_Get r <> EmptyString -> Decode (body r) = Some req ->
        fst (validateTimestamp y (TimeStamp req) (5 * time.Minute) w) = true ->
        fst (verifySignature y (Header_Get r) req w) = false ->
        V0.YayayWebhookHandler y s r w
        = (tt, add_wire (rejection "invalid signature")
                 (add_logs [mkLog LevelError "Invalid signature"] w))).
Proof.
  repeat apply conj.
  - intros H. unfold V0.YayayWebhookHandler. rewrite H. reflexivity.
  - intros H D. unfold V0.YayayWebhookHandler.
    rewrite (header_present r H), D. reflexivity.
  - intros req H D V. unfold V0.YayayWebhookHandler.
    rewrite (header_present r H), D. unfold bind at 1.
    rewrite V0_validateTimestamp_run, V. reflexivity.
  - intros req H D V G. unfold V0.YayayWebhookHandler.
    rewrite (header_present r H), D. unfold bind at 1.
    rewrite V0_validateTimestamp_run, V. cbn [negb]. unfold bind at 1.
    rewrite V0_verifySignature_run, G. reflexivity.
Qed.

(** X14. The handler file with the debug records and the one without answer
    every request alike: the same response, the same effect on the store,
    the same decisions of [validateTimestamp], [verifySignature] and
    [generateSignature].  The log of the earlier version is the log of the
    later one without its five debug records. *)
Theorem handler_versions_agree (y : yaya) (s : Sched) (r : Request) (w : World) :
  let w1 := snd (YayayWebhookHandler y s r w) in
  let w0 := snd (V0.YayayWebhookHandler y s r w) in
  wire w1 = wire w0
  /\ db w1 = db w0
  /\ (exists added1 added0,
        logs w1 = (logs w ++ added1)%list
        /\ logs w0 = (logs w ++ added0)%list
        /\ added0 = filter (fun l => negb (is_debug_record l)) added1)
  /\ (forall ts tol,
        fst (V0.validateTimestamp y ts tol w) = fst (validateTimestamp y ts tol w))
  /\ (forall sig p,
        fst (V0.verifySignature y sig p w) = fst (verifySignature y sig p w))
  /\ (forall k p,
        fst (V0.generateSignature y k p w) = fst (generateSignature y k p w)).
Proof.
  cbv zeta.
  assert (wire (snd (YayayWebhookHandler y s r w))
          = wire (snd (V0.YayayWebhookHandler y s r w))
          /\ db (snd (YayayWebhookHandler y s r w))
             = db (snd (V0.YayayWebhookHandler y s r w))
          /\ exists added1 added0,
               logs (snd (YayayWebhookHandler y s r w)) = (logs w ++ added1)%list
               /\ logs (snd (V0.YayayWebhookHandler y s r w)) = (logs w ++ added0)%list
               /\ added0 = filter (fun l => negb (is_debug_record l)) added1) as K.
  { destruct (string_dec (Header_Get r) EmptyString) as [H|H].
    { destruct (V0_handler_rejects y s r w) as (R1 & _).
      rewrite handler_missing_signature, R1 by assumption.
      repeat split. eexists; eexists; repeat split. }
    destruct (Decode (body r)) as [req|] eqn:D.
    2:{ destruct (V0_handler_rejects y s r w) as (_ & R2 & _).
        rewrite handler_invalid_data, R2 by assumption.
        repeat split. eexists; eexists; repeat split. }
    destruct (fst (validateTimestamp y (TimeStamp req) (5 * time.Minute) w)) eqn:V.
    2:{ destruct (V0_handler_rejects y s r w) as (_ & _ & R3 & _).
        rewrite (handler_invalid_timestamp y s r w req), (R3 req) by assumption.
        repeat split. eexists; eexists; repeat split. }
    destruct (fst (verifySignature y (Header_Get r) req w)) eqn:G.
    2:{ destruct (V0_handler_rejects y s r w) as (_ & _ & _ & R4).
        rewrite (handler_invalid_signature y s r w req), (R4 req) by assumption.
        repeat split.
        exists (auth_logs ++ [mkLog LevelError "Invalid signature"])%list.
        eexists. repeat split. }
    rewrite (handler_accepts y s r w req), (V0_handler_accepts y s r w req)
      by assumption.
    destruct (go_ingestion_effect y s req (add_logs auth_logs w)) as [W1 L1].
    destruct (go_ingestion_effect y s req w) as [W0 L0].
    repeat apply conj.
    - now rewrite W1, W0.
    - now rewrite !go_ingestion_db.
    - exists (auth_logs ++ [outcome_record (fault w)])%list,
        [outcome_record (fault w)].
      repeat apply conj.
      + rewrite L1. cbn. now rewrite <- app_assoc.
      + exact L0.
      + destruct (fault w); reflexivity. }
  destruct K as (K1 & K2 & K3).
  repeat apply conj; try assumption.
  - intros ts tol. now rewrite V0_validateTimestamp_run.
  - intros sig p. now rewrite V0_verifySignature_run.
  - intros k p. now rewrite generateSignature_run.
Qed.

(** ** The freshness check for any tolerance *)

(** X15. For a tolerance of [n] whole seconds (a [Duration], so within
    [int64] as nanoseconds) [validateTimestamp] accepts exactly the
    timestamps between [n] seconds ago and now: only the current second
    when [n] is 0, and none at all when [n] is negative. *)
Theorem validateTimestamp_tolerance (y : yaya) (timestamp n : Z) (w : World) :
  let T := time.Unix (clock w) in
  0 <= T < MaxInt64 ->
  MinInt64 <= timestamp <= MaxInt64 ->
  MinInt64 <= n * time.Second <= MaxInt64 ->
  (fst (validateTimestamp y timestamp (n * time.Second) w) = true
   <-> 0 <= T - timestamp <= n)
  /\ (n < 0 -> fst (validateTimestamp y timestamp (n * time.Second) w) = false)
  /\ (n = 0 ->
      (fst (validateTimestamp y timestamp (n * time.Second) w) = true
       <-> timestamp = T)).
Proof.
  intros T HT Hts Hn.
  assert (fst (validateTimestamp y timestamp (n * time.Second) w) = true
          <-> 0 <= T - timestamp <= n) as Hiff.
  { rewrite validateTimestamp_run. cbn [fst]. fold T.
    unfold time.Seconds_int64. rewrite Z.quot_mul by discriminate.
    unfold sub64. unfold MinInt64, MaxInt64, time.Second in *.
    rewrite andb_true_iff, !Z.leb_le.
    destruct (Z_le_gt_dec (T - timestamp) (2 ^ 63 - 1)) as [Hle|Hgt].
    - rewrite wrap64_small by (unfold MinInt64, MaxInt64; lia). reflexivity.
    - rewrite wrap64_above by (unfold MaxInt64; lia). lia. }
  split; [exact Hiff|]. split.
  - intros Hneg.
    destruct (fst (validateTimestamp y timestamp (n * time.Second) w)) eqn:E;
      [|reflexivity].
    assert (0 <= T - timestamp <= n) by now apply Hiff. lia.
  - intros E. rewrite Hiff. lia.
Qed.

Lemma validateTimestamp_tolerance_witness :
  fst (validateTimestamp (mkYaya "secret") 1700000040 (60 * time.Second)
         fresh_world) = true
  <-> 0 <= time.Unix (clock fresh_world) - 1700000040 <= 60.
Proof.
  assert (0 <= time.Unix (clock fresh_world) < MaxInt64) as HT
    by (vm_compute; split; [discriminate|reflexivity]).
  assert (MinInt64 <= 1700000040 <= MaxInt64) as Hts
    by (vm_compute; split; discriminate).
  assert (MinInt64 <= 60 * time.Second <= MaxInt64) as Hn
    by (vm_compute; split; discriminate).
  exact (proj1 (validateTimestamp_tolerance (mkYaya "secret") 1700000040 60
                  fresh_world HT Hts Hn)).
Defined.

(** ** When the goroutine runs *)

(** X16. The handler leaves the same world behind whether the goroutine it
    starts runs before or after the response is written: the same rows,
    the same log, the same response. *)
Theorem goroutine_schedule_is_unobservable (y : yaya) (r : Request) (w : World) :
  YayayWebhookHandler y TaskFirst r w = YayayWebhookHandler y TaskLast r w.
Proof.
  destruct (string_dec (Header_Get r) EmptyString) as [H|H].
  { now rewrite !handler_missing_signature. }
  destruct (Decode (body r)) as [req|] eqn:D.
  2:{ now rewrite !handler_invalid_data. }
  destruct (fst (validateTimestamp y (TimeStamp req) (5 * time.Minute) w)) eqn:V.
  2:{ now rewrite !(handler_invalid_timestamp y _ r w req). }
  destruct (fst (verifySignature y (Header_Get r) req w)) eqn:G.
  2:{ now rewrite !(handler_invalid_signature y _ r w req). }
  rewrite !(handler_accepts y _ r w req) by assumption.
  unfold go_, ingestion_task, bind. cbn [Encode].
  rewrite !saveWebhookToDatabase_run.
  destruct w as [c f d l o]. destruct f; reflexivity.
Qed.

(** ** From the webhook to the lookup *)


